(** * Vakio OpenAir: the fan entity, its coordinator and the MQTT session

    A shallow embedding of [fan.py] and [vakio.py].  Python values are a
    small tagged union, the objects of the integration are records, and a
    method is a function of the world that either returns or raises, the
    world it leaves behind being kept in both cases. *)

From Stdlib Require Import ZArith Lia Ascii String.
From stdpp Require Import base option list strings gmap.

Local Open Scope Z_scope.

(** ** Python values and exceptions *)

Inductive exn : Type :=
| TypeError
| ValueError
| IndexError
| KeyError
| UnicodeDecodeError.

(** The result of a pure, fallible expression. *)
Inductive res (A : Type) : Type :=
| Val (a : A)
| Exc (e : exn).
Arguments Val {A} a.
Arguments Exc {A} e.

(** ** [homeassistant.util.percentage] *)

Section util_percentage.
Context {A : Type} `{EqDecision A}.

(** [ordered_list.index(item)]: the first position that holds [item]. *)
Fixpoint list_index (item : A) (l : list A) : option nat :=
  match l with
  | [] => None
  | x :: l' => if decide (x = item) then Some 0%nat else S <$> list_index item l'
  end.

(** Modelled from the spec: [ordered_list_item_to_percentage] belongs to
    the host platform's utility library, which is not part of the
    repository; "toPercentage returns the upper bound of the named
    speed's bucket", the buckets dividing 0..100 evenly over the list,
    and an item that is not in the list is refused with [ValueError]. *)
Definition ordered_list_item_to_percentage (ordered_list : list A) (item : A) : res Z :=
  match list_index item ordered_list with
  | None => Exc ValueError
  | Some offset =>
      let list_len := Z.of_nat (length ordered_list) in
      let list_position := Z.of_nat offset + 1 in
      Val ((list_position * 100) / list_len)
  end.

(** The loop of [percentage_to_ordered_list_item]: walk the list from
    position [offset] and stop at the first bucket whose upper bound
    reaches [percentage]. *)
Fixpoint first_bucket (list_len percentage offset : Z) (l : list A) : option A :=
  match l with
  | [] => None
  | speed :: rest =>
      let list_position := offset + 1 in
      let upper_bound := (list_position * 100) / list_len in
      if percentage <=? upper_bound then Some speed
      else first_bucket list_len percentage (offset + 1) rest
  end.

(** Modelled from the spec: [percentage_to_ordered_list_item] belongs to
    the host platform's utility library, which is not part of the
    repository; "toNamedSpeed" takes the percentage to the quantization
    boundary of its bucket (bucket width 100/N), that is to the first
    named speed whose upper bound reaches it, and to the last one when
    the percentage is above every bound; an empty list is refused with
    [ValueError]. *)
Definition percentage_to_ordered_list_item (ordered_list : list A) (percentage : Z) : res A :=
  match ordered_list with
  | [] => Exc ValueError
  | x :: _ =>
      let list_len := Z.of_nat (length ordered_list) in
      match first_bucket list_len percentage 0 ordered_list with
      | Some speed => Val speed
      | None => Val (List.last ordered_list x)
      end
  end.
End util_percentage.

(** ** Python values

    What a variable of the integration can hold.  A coroutine object is
    what a call of an [async def] method evaluates to: the body of the
    method runs only when the object is awaited. *)

Inductive coroutine : Type :=
| co_speed (value : option Z)
| co_gate (value : option Z)
| co_state (value : option string)
| co_workmode (value : option string)
| co_turn_on
| co_turn_off.

Inductive pyval : Type :=
| VNone
| VBool (b : bool)
| VInt (z : Z)
| VStr (s : string)
| VCoroutine (c : coroutine).

#[global] Instance res_ret : MRet res := λ A a, Val a.
#[global] Instance res_bind : MBind res := λ A B f m,
  match m with
  | Val a => f a
  | Exc e => Exc e
  end.

(** [v is None] and [v is False]. *)
Definition py_is_None (v : pyval) : bool :=
  match v with VNone => true | _ => false end.

Definition py_is_False (v : pyval) : bool :=
  match v with VBool false => true | _ => false end.

(** [a == b]: numbers compare by value (a bool is the integer 0 or 1),
    strings by content, values of different kinds are unequal, and so is
    a coroutine object and any value it is compared with here. *)
Definition py_eq (a b : pyval) : bool :=
  match a, b with
  | VNone, VNone => true
  | VBool x, VBool y => bool_decide (x = y)
  | VBool x, VInt y | VInt y, VBool x => Z.b2z x =? y
  | VInt x, VInt y => x =? y
  | VStr x, VStr y => String.eqb x y
  | _, _ => false
  end.

(** [v > n] for an integer [n]: only numbers are ordered against an
    integer, anything else is a [TypeError]. *)
Definition py_gt_int (v : pyval) (n : Z) : res bool :=
  match v with
  | VInt z => Val (n <? z)
  | VBool b => Val (n <? Z.b2z b)
  | VNone | VStr _ | VCoroutine _ => Exc TypeError
  end.

(** [v - n] for an integer [n]. *)
Definition py_sub_int (v : pyval) (n : Z) : res Z :=
  match v with
  | VInt z => Val (z - n)
  | VBool b => Val (Z.b2z b - n)
  | VNone | VStr _ | VCoroutine _ => Exc TypeError
  end.

(** [l[i]]: a negative index counts from the end, an index outside
    [-len(l), len(l)) is an [IndexError]. *)
Definition list_getitem {A : Type} (l : list A) (i : Z) : res A :=
  let n := Z.of_nat (length l) in
  let j := if i <? 0 then n + i else i in
  if (0 <=? j) && (j <? n) then
    match l !! Z.to_nat j with
    | Some x => Val x
    | None => Exc IndexError
    end
  else Exc IndexError.

(** [str.split(s, sep)] for a separator of one character. *)
Fixpoint str_split (sep : ascii) (s : string) : list string :=
  match s with
  | EmptyString => [EmptyString]
  | String c s' =>
      if Ascii.eqb c sep then EmptyString :: str_split sep s'
      else match str_split sep s' with
           | x :: rest => String c x :: rest
           | [] => [String c EmptyString]
           end
  end.

(** [bytes.decode()]: strict UTF-8.  A [str] is represented by its UTF-8
    encoding, so decoding checks the bytes and keeps them. *)
Definition byte_in (lo hi : N) (c : ascii) : bool :=
  ((lo <=? N_of_ascii c) && (N_of_ascii c <=? hi))%N.

Definition continuation_byte : ascii → bool := byte_in 0x80 0xBF.

(** The second byte of a sequence of three or four, which excludes
    overlong forms, surrogates and code points above U+10FFFF. *)
Definition second_byte (b0 b1 : ascii) : bool :=
  if byte_in 0xE0 0xE0 b0 then byte_in 0xA0 0xBF b1
  else if byte_in 0xED 0xED b0 then byte_in 0x80 0x9F b1
  else if byte_in 0xF0 0xF0 b0 then byte_in 0x90 0xBF b1
  else if byte_in 0xF4 0xF4 b0 then byte_in 0x80 0x8F b1
  else continuation_byte b1.

Fixpoint utf8_valid (s : string) : bool :=
  match s with
  | EmptyString => true
  | String b0 s1 =>
      if byte_in 0x00 0x7F b0 then utf8_valid s1
      else
        match s1 with
        | EmptyString => false
        | String b1 s2 =>
            if byte_in 0xC2 0xDF b0 then continuation_byte b1 && utf8_valid s2
            else
              match s2 with
              | EmptyString => false
              | String b2 s3 =>
                  if byte_in 0xE0 0xEF b0 then
                    second_byte b0 b1 && continuation_byte b2 && utf8_valid s3
                  else
                    match s3 with
                    | EmptyString => false
                    | String b3 s4 =>
                        byte_in 0xF0 0xF4 b0 && second_byte b0 b1
                        && continuation_byte b2 && continuation_byte b3
                        && utf8_valid s4
                    end
              end
        end
  end.

Definition bytes_decode (payload : string) : res string :=
  if utf8_valid payload then Val payload else Exc UnicodeDecodeError.

(** [int(s)] on decimal ASCII text: optional blanks around, an optional
    sign, digits that single underscores may separate; [None] stands for
    the [ValueError] of the builtin.  The handler below takes the builtin
    as a parameter; this is the instance the examples run. *)
Definition is_space (c : ascii) : bool :=
  byte_in 9 13 c || byte_in 32 32 c.

Definition is_digit (c : ascii) : bool := byte_in 48 57 c.

Fixpoint lstrip (l : list ascii) : list ascii :=
  match l with
  | c :: l' => if is_space c then lstrip l' else l
  | [] => []
  end.

Fixpoint digits (acc : Z) (after_digit : bool) (l : list ascii) : option Z :=
  match l with
  | [] => if after_digit then Some acc else None
  | c :: l' =>
      if is_digit c then digits (10 * acc + (Z.of_N (N_of_ascii c) - 48)) true l'
      else if Ascii.eqb c "_" && after_digit then digits acc false l'
      else None
  end.

Definition int_ascii (s : string) : option Z :=
  let body := lstrip (rev (lstrip (rev (list_ascii_of_string s)))) in
  match body with
  | c :: l' =>
      if Ascii.eqb c "-" then Z.opp <$> digits 0 false l'
      else if Ascii.eqb c "+" then digits 0 false l'
      else digits 0 false body
  | [] => None
  end.

(** ** The objects of the integration *)

(** [const.py] is not among the sources: the constants the two modules
    import from it are the fields of a class, and the code below is
    parametrised by an instance of it. *)
Class Const : Type := {
  OPENAIR_STATE_ON : string;
  OPENAIR_STATE_OFF : string;
  OPENAIR_SPEED_LIST : list Z;
  OPENAIR_SPEED_01 : Z;
}.

Definition SPEED_ENDPOINT : string := "speed".
Definition GATE_ENDPOINT : string := "gate".
Definition STATE_ENDPOINT : string := "state".
Definition WORKMODE_ENDPOINT : string := "workmode".
Definition TEMP_ENDPOINT : string := "temp".
Definition HUD_ENDPOINT : string := "hud".
Definition ENDPOINTS : list string :=
  [SPEED_ENDPOINT; GATE_ENDPOINT; STATE_ENDPOINT; WORKMODE_ENDPOINT;
   TEMP_ENDPOINT; HUD_ENDPOINT].

(** The entries of the configuration the session reads. *)
Record ConfigData : Type := {
  CONF_HOST : string;
  CONF_PORT : Z;
  CONF_TOPIC : string;
}.

Record MqttClient : Type := {
  data : ConfigData;
  is_run : bool;
  subscribes_count : nat;
  is_connected : bool;
}.

Record Coordinator : Type := {
  mqttc : MqttClient;
  condition : gmap string pyval;
  is_logged_in : bool;
}.

(** The feature flags of the host platform's fan component; a value of
    the flag type is the set of the flags it has. *)
Inductive FanEntityFeature : Type :=
| SET_SPEED
| OSCILLATE
| DIRECTION
| PRESET_MODE.

#[global] Instance FanEntityFeature_eq_dec : EqDecision FanEntityFeature.
Proof. solve_decision. Defined.

Record VakioOpenAirFan : Type := {
  _attr_supported_features : list FanEntityFeature;
  _percentage : option Z;
  _preset_modes : option (list string);
  _preset_mode : option string;
  _oscillating : option bool;
  _direction : option string;
}.

(** What the integration asks of its collaborators: the MQTT client
    library, the logger and the host platform.  The calls are recorded in
    the order they are made. *)
Inductive log_level : Type := DEBUG | ERROR.

Inductive call : Type :=
| client_connect (host : string) (port : Z)
| client_loop_start
| client_subscribe (topics : list (string * Z))
| client_unsubscribe (topic : string)
| client_publish (topic : string) (msg : pyval) (qos : Z) (retain : bool)
| client_on_connect_cleared
| client_loop_stop
| client_disconnect
| logger (level : log_level) (text : string)
| schedule_update_ha_state.

(** What the MQTT client library answers. *)
Inductive connect_outcome : Type :=
| connect_returns
| connect_raises_OSError.

(** The status [MqttClient.connect] derives from the answer. *)
Definition connected (answer : connect_outcome) : bool :=
  match answer with
  | connect_returns => true
  | connect_raises_OSError => false
  end.

Record MQTTMessageInfo : Type := { rc : Z; mid : Z }.

Record MQTTMessage : Type := { topic : string; payload : string }.

Record World : Type := {
  fan : VakioOpenAirFan;
  coordinator : Coordinator;
  calls : list call;
}.

(** ** Methods: functions of the world that return or raise *)

Inductive outcome (A : Type) : Type :=
| Return (a : A) (w : World)
| Raise (e : exn) (w : World).
Arguments Return {A} a w.
Arguments Raise {A} e w.

Definition M (A : Type) : Type := World → outcome A.

#[global] Instance M_ret : MRet M := λ A a w, Return a w.
#[global] Instance M_bind : MBind M := λ A B f m w,
  match m w with
  | Return a w' => f a w'
  | Raise e w' => Raise e w'
  end.

Definition raise {A : Type} (e : exn) : M A := λ w, Raise e w.

Definition lift {A : Type} (r : res A) : M A :=
  match r with
  | Val a => mret a
  | Exc e => raise e
  end.

Definition get_world : M World := λ w, Return w w.
Definition modify (f : World → World) : M unit := λ w, Return tt (f w).

(** The world a method leaves behind, however it ends. *)
Definition world_after {A : Type} (o : outcome A) : World :=
  match o with
  | Return _ w => w
  | Raise _ w => w
  end.

Definition emit (c : call) : M unit :=
  modify (λ w, {| fan := fan w; coordinator := coordinator w; calls := calls w ++ [c] |}).

Definition modify_fan (f : VakioOpenAirFan → VakioOpenAirFan) : M unit :=
  modify (λ w, {| fan := f (fan w); coordinator := coordinator w; calls := calls w |}).

Definition modify_coordinator (f : Coordinator → Coordinator) : M unit :=
  modify (λ w, {| fan := fan w; coordinator := f (coordinator w); calls := calls w |}).

Definition set__percentage (v : option Z) (self : VakioOpenAirFan) : VakioOpenAirFan :=
  {| _attr_supported_features := _attr_supported_features self;
     _percentage := v;
     _preset_modes := _preset_modes self;
     _preset_mode := _preset_mode self;
     _oscillating := _oscillating self;
     _direction := _direction self |}.

Definition set__preset_mode (v : option string) (self : VakioOpenAirFan) : VakioOpenAirFan :=
  {| _attr_supported_features := _attr_supported_features self;
     _percentage := _percentage self;
     _preset_modes := _preset_modes self;
     _preset_mode := v;
     _oscillating := _oscillating self;
     _direction := _direction self |}.

Definition set_subscribes_count (n : nat) (self : MqttClient) : MqttClient :=
  {| data := data self; is_run := is_run self; subscribes_count := n;
     is_connected := is_connected self |}.

Definition set_mqttc (c : MqttClient) (self : Coordinator) : Coordinator :=
  {| mqttc := c; condition := condition self; is_logged_in := is_logged_in self |}.

Definition set_condition (d : gmap string pyval) (self : Coordinator) : Coordinator :=
  {| mqttc := mqttc self; condition := d; is_logged_in := is_logged_in self |}.

Definition set_is_logged_in (b : bool) (self : Coordinator) : Coordinator :=
  {| mqttc := mqttc self; condition := condition self; is_logged_in := b |}.

(** An [async def] method called without [await]: the call builds the
    coroutine object and runs nothing of the body. *)
Definition call_without_await (c : coroutine) : M pyval := mret (VCoroutine c).

(** [d[key]] on the condition dictionary. *)
Definition condition_getitem (key : string) : M pyval :=
  w ← get_world;
  match condition (coordinator w) !! key with
  | Some v => mret v
  | None => raise KeyError
  end.

(** ** [vakio.py] *)

Section vakio.
Context `{Const}.

(** *** [MqttClient] *)

Definition MqttClient_init (data : ConfigData) : MqttClient :=
  {| data := data; is_run := false; subscribes_count := 0; is_connected := false |}.

(** The callback of the client library for an inbound message.  [int]
    is the builtin applied to a [str]: the integer, or [None] when it
    raises [ValueError], the one exception it has for a [str] and the one
    the handler catches. *)
Definition MqttClient_on_message (int : string → option Z) (message : MQTTMessage) : M unit :=
  key ← lift (list_getitem (str_split "/" (topic message)) (-1));
  emit (client_unsubscribe (topic message));;
  value ← lift (bytes_decode (payload message));
  let value :=
    match int value with
    | Some z => VInt z
    | None => VStr value
    end in
  modify_coordinator (λ c, set_condition (<[key := value]> (condition c)) c).

(** [answer] is what the library's [connect] does. *)
Definition MqttClient_connect (answer : connect_outcome) : M bool :=
  w ← get_world;
  let d := data (mqttc (coordinator w)) in
  emit (client_connect (CONF_HOST d) (CONF_PORT d));;
  match answer with
  | connect_returns =>
      emit client_loop_start;;
      mret true
  | connect_raises_OSError =>
      emit (logger ERROR "Failed to connect to MQTT server due to exception: %s");;
      mret false
  end.

Definition MqttClient_subscribe : M unit :=
  modify_coordinator (λ c,
    set_mqttc (set_subscribes_count (S (subscribes_count (mqttc c))) (mqttc c)) c);;
  w ← get_world;
  let d := data (mqttc (coordinator w)) in
  emit (client_subscribe
          ((λ endpoint, (CONF_TOPIC d +:+ "/" +:+ endpoint, 0)) <$> ENDPOINTS));;
  foldr (λ endpoint rest,
           emit (logger DEBUG "Subscribe to %s, mid: %s, qos: %s");; rest)
        (mret tt) ENDPOINTS.

Definition MqttClient_get_condition : M (gmap string pyval) :=
  MqttClient_subscribe;;
  w ← get_world;
  mret (condition (coordinator w)).

(** [msg_info] is what the library's [publish] returns. *)
Definition MqttClient_publish (endpoint : string) (msg : pyval)
    (msg_info : MQTTMessageInfo) : M bool :=
  w ← get_world;
  let topic := CONF_TOPIC (data (mqttc (coordinator w))) +:+ "/" +:+ endpoint in
  let qos := 0 in
  let retain := true in
  emit (client_publish topic msg qos retain);;
  mret true.

(** *** [Coordinator] *)

Definition Coordinator_init (data : ConfigData) : Coordinator :=
  {| mqttc := MqttClient_init data;
     condition :=
       <[GATE_ENDPOINT := VNone]> (<[SPEED_ENDPOINT := VNone]>
       (<[WORKMODE_ENDPOINT := VNone]> (<[STATE_ENDPOINT := VNone]>
       (<[TEMP_ENDPOINT := VNone]> (<[HUD_ENDPOINT := VNone]> ∅)))));
     is_logged_in := false |}.

Definition Coordinator_async_login (answer : connect_outcome) : M bool :=
  w ← get_world;
  if is_logged_in (coordinator w) then mret true
  else
    status ← MqttClient_connect answer;
    MqttClient_subscribe;;
    (if negb status then emit (logger ERROR "Auth error") else mret tt);;
    modify_coordinator (set_is_logged_in true);;
    mret status.

Definition Coordinator__async_update_data : M bool :=
  MqttClient_get_condition;;
  mret true.

Definition Coordinator__async_update : M unit :=
  MqttClient_get_condition;;
  mret tt.

(** The bodies of the four accessors, as they run when awaited. *)
Definition Coordinator_speed (value : option Z) (msg_info : MQTTMessageInfo) : M pyval :=
  match value with
  | None => condition_getitem SPEED_ENDPOINT
  | Some value =>
      sent ← MqttClient_publish SPEED_ENDPOINT (VInt value) msg_info;
      mret (VBool sent)
  end.

Definition Coordinator_gate (value : option Z) (msg_info : MQTTMessageInfo) : M pyval :=
  match value with
  | None => condition_getitem GATE_ENDPOINT
  | Some value =>
      sent ← MqttClient_publish GATE_ENDPOINT (VInt value) msg_info;
      mret (VBool sent)
  end.

Definition Coordinator_state (value : option string) (msg_info : MQTTMessageInfo) : M pyval :=
  match value with
  | None => condition_getitem STATE_ENDPOINT
  | Some value =>
      sent ← MqttClient_publish STATE_ENDPOINT (VStr value) msg_info;
      mret (VBool sent)
  end.

Definition Coordinator_workmode (value : option string) (msg_info : MQTTMessageInfo) : M pyval :=
  match value with
  | None => condition_getitem WORKMODE_ENDPOINT
  | Some value =>
      sent ← MqttClient_publish WORKMODE_ENDPOINT (VStr value) msg_info;
      mret (VBool sent)
  end.

Definition Coordinator_get_speed : M pyval := condition_getitem SPEED_ENDPOINT.
Definition Coordinator_get_gate : M pyval := condition_getitem GATE_ENDPOINT.
Definition Coordinator_get_state : M pyval := condition_getitem STATE_ENDPOINT.
Definition Coordinator_get_workmode : M pyval := condition_getitem WORKMODE_ENDPOINT.
Definition Coordinator_get_temp : M pyval := condition_getitem TEMP_ENDPOINT.
Definition Coordinator_get_hud : M pyval := condition_getitem HUD_ENDPOINT.

Definition Coordinator_turn_on (msg_info : MQTTMessageInfo) : M pyval :=
  Coordinator_state (Some OPENAIR_STATE_ON) msg_info.

Definition Coordinator_turn_off (msg_info : MQTTMessageInfo) : M pyval :=
  Coordinator_state (Some OPENAIR_STATE_OFF) msg_info.

Definition Coordinator_is_on : M bool :=
  current_state ← Coordinator_get_state;
  mret (py_eq current_state (VStr OPENAIR_STATE_ON)).

(** Awaiting a coroutine object runs the body of its method. *)
Definition await (c : coroutine) (msg_info : MQTTMessageInfo) : M pyval :=
  match c with
  | co_speed value => Coordinator_speed value msg_info
  | co_gate value => Coordinator_gate value msg_info
  | co_state value => Coordinator_state value msg_info
  | co_workmode value => Coordinator_workmode value msg_info
  | co_turn_on => Coordinator_turn_on msg_info
  | co_turn_off => Coordinator_turn_off msg_info
  end.
End vakio.

(** ** [fan.py] *)

Definition FULL_SUPPORT : list FanEntityFeature :=
  [SET_SPEED; DIRECTION; OSCILLATE; PRESET_MODE].
Definition LIMITED_SUPPORT : list FanEntityFeature := [SET_SPEED; PRESET_MODE].
Definition PRESET_MODS : list string :=
  ["Off"; "Gate 1"; "Gate 2"; "Gate 3"; "Gate 4"; "Super Auto"].

Section fan.
Context `{Const}.

Definition VakioOpenAirFan_init (supported_features : list FanEntityFeature)
    (preset_modes : option (list string)) : VakioOpenAirFan :=
  {| _attr_supported_features := supported_features;
     _percentage := None;
     _preset_modes := preset_modes;
     _preset_mode := None;
     _oscillating :=
       if bool_decide (OSCILLATE ∈ supported_features) then Some false else None;
     _direction := None |}.

Definition percentage (self : VakioOpenAirFan) : option Z := _percentage self.
Definition speed_count : nat := length OPENAIR_SPEED_LIST.
Definition preset_mode (self : VakioOpenAirFan) : option string := _preset_mode self.
Definition preset_modes (self : VakioOpenAirFan) : option (list string) :=
  _preset_modes self.

Definition update_all_options : M unit := emit schedule_update_ha_state.

(** [speed is None or speed > len(OPENAIR_SPEED_LIST) or speed == 0],
    evaluated from left to right. *)
Definition speed_missing (speed : pyval) : res bool :=
  if py_is_None speed then Val true
  else
    above ← py_gt_int speed (Z.of_nat (length OPENAIR_SPEED_LIST));
    if (above : bool) then Val true else Val (py_eq speed (VInt 0)).

(** [update_speed] from its second statement on, [speed] being what
    the first statement bound. *)
Definition update_speed_with (speed : pyval) : M bool :=
  w ← get_world;
  missing ← lift (speed_missing speed);
  if (missing : bool) && bool_decide (is_Some (_percentage (fan w))) then
    modify_fan (set__percentage None);;
    mret true
  else if py_is_None speed || py_is_False speed then mret false
  else
    speed ← lift (py_sub_int speed 1);
    named_speed ← lift (list_getitem OPENAIR_SPEED_LIST speed);
    new_speed_percentage ←
      lift (ordered_list_item_to_percentage OPENAIR_SPEED_LIST named_speed);
    if bool_decide (_percentage (fan w) ≠ Some new_speed_percentage) then
      modify_fan (set__percentage (Some new_speed_percentage));;
      mret true
    else mret false.

(** [speed = self.coordinator.speed()]: [Coordinator.speed] is an
    [async def] and the call is not awaited, so [speed] is bound to the
    coroutine object, not to the cached value. *)
Definition update_speed : M bool :=
  speed ← call_without_await (co_speed None);
  update_speed_with speed.

Definition update_preset_mode : M bool := mret true.

Definition update_on_off : M bool :=
  is_on ← Coordinator_is_on;
  w ← get_world;
  if negb is_on then
    match _percentage (fan w) with
    | Some p =>
        if 0 <? p then
          modify_fan (set__percentage (Some 0));;
          mret true
        else mret false
    | None => mret false
    end
  else
    if bool_decide (_percentage (fan w) = None)
       || bool_decide (_percentage (fan w) = Some 0) then
      (if bool_decide (_percentage (fan w) = None) then
         p ← lift (ordered_list_item_to_percentage OPENAIR_SPEED_LIST OPENAIR_SPEED_01);
         modify_fan (set__percentage (Some p))
       else mret tt);;
      (if bool_decide (_preset_mode (fan w) = Some OPENAIR_STATE_OFF) then
         modify_fan (set__preset_mode None)
       else mret tt);;
      mret true
    else mret false.

Definition _async_update : M unit :=
  let is_update := false in
  b ← update_speed;
  let is_update := if (b : bool) then true else is_update in
  b ← update_preset_mode;
  let is_update := if (b : bool) then true else is_update in
  b ← update_on_off;
  let is_update := if (b : bool) then true else is_update in
  if is_update then update_all_options else mret tt.

Definition async_set_percentage (percentage : Z) : M unit :=
  modify_fan (set__percentage (Some percentage));;
  if percentage =? 0 then
    call_without_await co_turn_off;;
    update_all_options
  else
    call_without_await co_turn_on;;
    speed ← lift (percentage_to_ordered_list_item OPENAIR_SPEED_LIST percentage);
    call_without_await (co_speed (Some speed));;
    b ← update_speed;
    if (b : bool) then update_all_options else mret tt.

Definition async_set_preset_mode (preset_mode : string) : M unit :=
  w ← get_world;
  (match preset_modes (fan w) with
   | Some modes =>
       if bool_decide (modes ≠ []) && bool_decide (preset_mode ∈ modes) then
         modify_fan (set__preset_mode (Some preset_mode))
       else raise ValueError
   | None => raise ValueError
   end);;
  w ← get_world;
  if bool_decide (_preset_mode (fan w) = Some OPENAIR_STATE_OFF) then mret tt
  else update_all_options.

Definition async_turn_on (percentage : option Z) : M unit :=
  call_without_await co_turn_on;;
  new_speed ←
    match percentage with
    | Some percentage =>
        lift (percentage_to_ordered_list_item OPENAIR_SPEED_LIST percentage)
    | None => mret OPENAIR_SPEED_01
    end;
  call_without_await (co_speed (Some new_speed));;
  update_all_options.

Definition async_turn_off : M unit :=
  call_without_await co_turn_off;;
  _async_update.
End fan.

(** The world after one publication to an endpoint. *)
Definition published (endpoint : string) (msg : pyval) (w : World) : World :=
  {| fan := fan w;
     coordinator := coordinator w;
     calls := calls w ++
       [client_publish (CONF_TOPIC (data (mqttc (coordinator w))) +:+ "/" +:+ endpoint)
          msg 0 true] |}.

(** What the module computes when it is imported (its lines 33 and 34):
    the import fails unless both return. *)
Definition fan_module_imports `{Const} : Prop :=
  (∃ percentage, ordered_list_item_to_percentage OPENAIR_SPEED_LIST OPENAIR_SPEED_01
                 = Val percentage)
  ∧ (∃ named_speed, percentage_to_ordered_list_item OPENAIR_SPEED_LIST 20
                    = Val named_speed).

(** ** Instances the examples run on *)

Definition example_const : Const :=
  {| OPENAIR_STATE_ON := "on";
     OPENAIR_STATE_OFF := "off";
     OPENAIR_SPEED_LIST := [1; 2; 3; 4; 5; 6; 7];
     OPENAIR_SPEED_01 := 1 |}.

Definition example_data : ConfigData :=
  {| CONF_HOST := "broker.local"; CONF_PORT := 1883; CONF_TOPIC := "vakio/openair" |}.

(** The world after the set-up of the platform: a coordinator and the
    fan entity as their constructors leave them, and no call made yet. *)
Definition initial_world (data : ConfigData) : World :=
  {| fan := VakioOpenAirFan_init LIMITED_SUPPORT (Some PRESET_MODS);
     coordinator := Coordinator_init data;
     calls := [] |}.

Definition with_condition (key : string) (value : pyval) (w : World) : World :=
  {| fan := fan w;
     coordinator :=
       set_condition (<[key := value]> (condition (coordinator w))) (coordinator w);
     calls := calls w |}.

Definition with_percentage (p : option Z) (w : World) : World :=
  {| fan := set__percentage p (fan w); coordinator := coordinator w; calls := calls w |}.

Definition with_preset_mode (m : option string) (w : World) : World :=
  {| fan := set__preset_mode m (fan w); coordinator := coordinator w; calls := calls w |}.

(** A device that is on, and the entity as it was constructed. *)
Definition example_world : World :=
  with_condition STATE_ENDPOINT (VStr "on") (initial_world example_data).

(** The same device at its first speed, and the entity in agreement
    with it. *)
Definition idle_world : World :=
  with_percentage (Some 14) (with_condition SPEED_ENDPOINT (VInt 1) example_world).

(** Telemetry for the speed endpoint, and a message whose payload is the
    single byte 255, which no UTF-8 text contains. *)
Definition speed_message : MQTTMessage :=
  {| topic := "vakio/openair/speed"; payload := "3" |}.

Definition binary_message : MQTTMessage :=
  {| topic := "vakio/openair/speed";
     payload := String (ascii_of_N 255) EmptyString |}.

(** The library's [publish] reporting that there is no connection. *)
Definition MQTT_ERR_NO_CONN : Z := 4.
Definition no_connection : MQTTMessageInfo := {| rc := MQTT_ERR_NO_CONN; mid := 1 |}.

(** How many of the recorded calls satisfy a test. *)
Definition count_calls (test : call → bool) (l : list call) : nat :=
  length (List.filter test l).

Definition is_connect (c : call) : bool :=
  match c with client_connect _ _ => true | _ => false end.
Definition is_subscribe (c : call) : bool :=
  match c with client_subscribe _ => true | _ => false end.
Definition is_publish (c : call) : bool :=
  match c with client_publish _ _ _ _ => true | _ => false end.
Definition is_notification (c : call) : bool :=
  match c with schedule_update_ha_state => true | _ => false end.

(** ** The methods as operations

    Every method of the three classes that changes the world, as one
    operation: the callbacks the client library invokes, the methods of
    the coordinator, and the methods of the entity.  A method that raises
    leaves the world it had reached, and the next operation runs on it. *)

Definition set_is_connected (b : bool) (self : MqttClient) : MqttClient :=
  {| data := data self; is_run := is_run self;
     subscribes_count := subscribes_count self; is_connected := b |}.

(** [MqttClient.on_connect] *)
Definition MqttClient_on_connect : M unit :=
  modify_coordinator (λ c, set_mqttc (set_is_connected true (mqttc c)) c).

(** [MqttClient.disconnect]: the flag goes down, the loop of the client
    is stopped and the client disconnects. *)
Definition MqttClient_disconnect : M unit :=
  modify_coordinator (λ c, set_mqttc (set_is_connected false (mqttc c)) c);;
  emit client_loop_stop;;
  emit client_disconnect.

(** [MqttClient.try_connect]: the callback of the client is cleared
    ([self._client.on_connect = None]), the client is asked to connect,
    and whatever it raises is turned into [False]. *)
Definition MqttClient_try_connect (answer : connect_outcome) : M bool :=
  emit client_on_connect_cleared;;
  w ← get_world;
  let d := data (mqttc (coordinator w)) in
  emit (client_connect (CONF_HOST d) (CONF_PORT d));;
  match answer with
  | connect_returns => mret true
  | connect_raises_OSError => mret false
  end.

Inductive operation : Type :=
| on_message_op (message : MQTTMessage)
| on_connect_op
| disconnect_op
| try_connect_op (answer : connect_outcome)
| async_login_op (answer : connect_outcome)
| coordinator_update_data_op
| coordinator_update_op
| await_op (c : coroutine) (msg_info : MQTTMessageInfo)
| async_set_percentage_op (percentage : Z)
| async_set_preset_mode_op (preset_mode : string)
| async_turn_on_op (percentage : option Z)
| async_turn_off_op
| async_update_op
| update_speed_op
| update_preset_mode_op
| update_on_off_op
| update_all_options_op.

Definition run `{Const} (int : string → option Z) (op : operation) (w : World) : World :=
  match op with
  | on_message_op message => world_after (MqttClient_on_message int message w)
  | on_connect_op => world_after (MqttClient_on_connect w)
  | disconnect_op => world_after (MqttClient_disconnect w)
  | try_connect_op answer => world_after (MqttClient_try_connect answer w)
  | async_login_op answer => world_after (Coordinator_async_login answer w)
  | coordinator_update_data_op => world_after (Coordinator__async_update_data w)
  | coordinator_update_op => world_after (Coordinator__async_update w)
  | await_op c msg_info => world_after (await c msg_info w)
  | async_set_percentage_op percentage => world_after (async_set_percentage percentage w)
  | async_set_preset_mode_op preset_mode =>
      world_after (async_set_preset_mode preset_mode w)
  | async_turn_on_op percentage => world_after (async_turn_on percentage w)
  | async_turn_off_op => world_after (async_turn_off w)
  | async_update_op => world_after (_async_update w)
  | update_speed_op => world_after (update_speed w)
  | update_preset_mode_op => world_after (update_preset_mode w)
  | update_on_off_op => world_after (update_on_off w)
  | update_all_options_op => world_after (update_all_options w)
  end.

Definition run_all `{Const} (int : string → option Z) (ops : list operation)
    (w : World) : World :=
  foldl (λ w op, run int op w) w ops.

(** The methods of the entity, and the inbound messages. *)
Definition is_entity_method (op : operation) : bool :=
  match op with
  | async_set_percentage_op _ | async_set_preset_mode_op _ | async_turn_on_op _
  | async_turn_off_op | async_update_op | update_speed_op | update_preset_mode_op
  | update_on_off_op | update_all_options_op => true
  | _ => false
  end.

Definition is_on_message (op : operation) : bool :=
  match op with on_message_op _ => true | _ => false end.

(** The awaited calls that carry a value to publish. *)
Definition is_setter (c : coroutine) : bool :=
  match c with
  | co_speed (Some _) | co_gate (Some _) | co_state (Some _) | co_workmode (Some _)
  | co_turn_on | co_turn_off => true
  | _ => false
  end.

Definition is_awaited_setter (op : operation) : bool :=
  match op with await_op c _ => is_setter c | _ => false end.

(** The operations that subscribe: a refresh always, a login when the
    coordinator is not logged in yet. *)
Definition is_refresh (op : operation) : bool :=
  match op with
  | coordinator_update_data_op | coordinator_update_op => true
  | _ => false
  end.

Definition is_try_connect (op : operation) : bool :=
  match op with try_connect_op _ => true | _ => false end.

Definition is_unsubscribe (c : call) : bool :=
  match c with client_unsubscribe _ => true | _ => false end.

Definition is_client_call (c : call) : bool :=
  match c with
  | client_connect _ _ | client_loop_start | client_subscribe _
  | client_unsubscribe _ | client_publish _ _ _ _
  | client_on_connect_cleared | client_loop_stop | client_disconnect => true
  | _ => false
  end.

(** What the handler stores for a payload it could decode. *)
Definition stored (int : string → option Z) (payload : string) : pyval :=
  match int payload with
  | Some z => VInt z
  | None => VStr payload
  end.

(** The preset mode of the entity is absent or one of its preset modes. *)
Definition preset_mode_known (self : VakioOpenAirFan) : Prop :=
  match _preset_mode self with
  | None => True
  | Some mode => ∃ modes, _preset_modes self = Some modes ∧ mode ∈ modes
  end.

(** A day in the life of the integration, for the examples. *)
Definition example_ops : list operation :=
  [async_login_op connect_raises_OSError;
   coordinator_update_op;
   on_message_op {| topic := "vakio/openair/state"; payload := "on" |};
   on_message_op {| topic := "vakio/openair/speed"; payload := "3" |};
   async_set_preset_mode_op "Gate 2";
   async_set_percentage_op 50;
   await_op (co_speed (Some 4)) {| rc := 0; mid := 7 |};
   async_login_op connect_returns;
   async_turn_off_op;
   coordinator_update_op;
   on_message_op {| topic := "vakio/openair/state";
                    payload := String (ascii_of_N 255) EmptyString |};
   update_on_off_op].

(** The cache slot an inbound message is for: the last segment of its
    topic. *)
Definition message_key (message : MQTTMessage) : option string :=
  last (str_split "/" (topic message)).

Definition is_login (op : operation) : bool :=
  match op with async_login_op _ => true | _ => false end.

(** ** Relations between the world before and after a method *)

Definition keeps_at (R : relation World) {A : Type} (m : M A) (w : World) : Prop :=
  R w (world_after (m w)).

Definition same_static_fields (w w' : World) : Prop :=
  _attr_supported_features (fan w') = _attr_supported_features (fan w)
  ∧ _preset_modes (fan w') = _preset_modes (fan w)
  ∧ _oscillating (fan w') = _oscillating (fan w)
  ∧ _direction (fan w') = _direction (fan w)
  ∧ data (mqttc (coordinator w')) = data (mqttc (coordinator w))
  ∧ is_run (mqttc (coordinator w')) = is_run (mqttc (coordinator w)).

Definition same_entity (w w' : World) : Prop := fan w' = fan w.

Definition same_coordinator_and_client_calls (w w' : World) : Prop :=
  coordinator w' = coordinator w
  ∧ List.filter is_client_call (calls w') = List.filter is_client_call (calls w).

Definition same_condition (w w' : World) : Prop :=
  condition (coordinator w') = condition (coordinator w).

Definition keys_stay (w w' : World) : Prop :=
  ∀ key, is_Some (condition (coordinator w) !! key) →
         is_Some (condition (coordinator w') !! key).

Definition preset_stays_known (w w' : World) : Prop :=
  _preset_modes (fan w') = _preset_modes (fan w)
  ∧ (preset_mode_known (fan w) → preset_mode_known (fan w')).

Definition same_count (test : call → bool) (w w' : World) : Prop :=
  count_calls test (calls w') = count_calls test (calls w).

Definition same_session (w w' : World) : Prop :=
  is_logged_in (coordinator w') = is_logged_in (coordinator w)
  ∧ same_count is_connect w w'
  ∧ same_count is_subscribe w w'.

Definition counter_tracks_subscriptions (w w' : World) : Prop :=
  (subscribes_count (mqttc (coordinator w')) + count_calls is_subscribe (calls w)
   = subscribes_count (mqttc (coordinator w)) + count_calls is_subscribe (calls w'))%nat.

(** The world after one notification of the host. *)
Definition notified (w : World) : World :=
  {| fan := fan w; coordinator := coordinator w;
     calls := calls w ++ [schedule_update_ha_state] |}.

(** [self._percentage is not None and self._percentage > 0] *)
Definition positive_percentage (self : VakioOpenAirFan) : bool :=
  match _percentage self with
  | Some p => 0 <? p
  | None => false
  end.

(** The upper bound of the bucket of the speed at position [k], counted
    from 1. *)
Definition speed_percentage `{Const} (k : Z) : Z :=
  k * 100 / Z.of_nat (length OPENAIR_SPEED_LIST).

(** One more connect, and one more subscribe, for the first login of a
    sequence that starts on a coordinator that is not logged in. *)
Definition first_login (w : World) (ops : list operation) : nat :=
  if negb (is_logged_in (coordinator w)) && existsb is_login ops then 1%nat else 0%nat.

(** The operations of [example_ops] on the side of the coordinator, and
    commands and steps of the entity. *)
Definition example_coordinator_ops : list operation :=
  [async_login_op connect_raises_OSError;
   coordinator_update_op;
   on_message_op {| topic := "vakio/openair/state"; payload := "on" |};
   await_op (co_speed (Some 4)) {| rc := 0; mid := 7 |};
   on_connect_op;
   coordinator_update_data_op;
   try_connect_op connect_returns;
   disconnect_op].

Definition example_entity_ops : list operation :=
  [async_set_preset_mode_op "Gate 2";
   async_set_percentage_op 50;
   async_turn_on_op (Some 30);
   async_turn_off_op;
   async_update_op;
   update_on_off_op;
   async_set_percentage_op 0].

(** The operations with no statement that notifies the host on any
    path: everything but [update_all_options] and the three commands
    that call it. *)
Definition never_notifies (op : operation) : bool :=
  match op with
  | update_all_options_op | async_set_percentage_op _ | async_set_preset_mode_op _
  | async_turn_on_op _ => false
  | _ => true
  end.

(** ** Theorems *)

Section util_percentage_facts.
Context {A : Type} `{EqDecision A}.

Lemma list_index_lookup (l : list A) (item : A) (i : nat) :
  list_index item l = Some i → l !! i = Some item.
Proof.
  revert i. induction l as [|x l IH]; intros i; simpl; [done|].
  destruct (decide (x = item)) as [->|Hne].
  - intros [= <-]. done.
  - destruct (list_index item l) as [j|] eqn:Hj; simpl; [|done].
    intros [= <-]. simpl. by apply IH.
Qed.

Lemma list_index_NoDup (l : list A) (item : A) (i : nat) :
  NoDup l → l !! i = Some item → list_index item l = Some i.
Proof.
  intros Hnd. revert i. induction Hnd as [|x l Hx Hnd IH]; intros i; [done|].
  destruct i as [|i]; simpl.
  - intros [= ->]. by rewrite decide_True.
  - intros Hi. rewrite decide_False.
    + by rewrite (IH i Hi).
    + intros ->. apply Hx. by eapply list_elem_of_lookup_2.
Qed.

Lemma list_index_elem_of (l : list A) (item : A) :
  item ∈ l → is_Some (list_index item l).
Proof.
  induction 1 as [x l|x y l Hin IH]; simpl.
  - rewrite decide_True; eauto.
  - destruct (decide (y = x)); [eauto|].
    destruct IH as [j ->]. simpl. eauto.
Qed.

(** What the loop returns: the item at the first position whose upper
    bound reaches the percentage. *)
Lemma first_bucket_Some (n p off : Z) (l : list A) (speed : A) :
  first_bucket n p off l = Some speed →
  ∃ j : nat, l !! j = Some speed
    ∧ p ≤ ((off + Z.of_nat j + 1) * 100) / n
    ∧ ((0 < j)%nat → ((off + Z.of_nat j) * 100) / n < p).
Proof.
  revert off. induction l as [|x l IH]; intros off; simpl; [done|].
  destruct (p <=? (off + 1) * 100 / n) eqn:Hle.
  - intros [= ->]. exists 0%nat. split; [done|]. split; [|lia].
    apply Z.leb_le in Hle. by replace (off + Z.of_nat 0 + 1) with (off + 1) by lia.
  - intros Hrest. apply Z.leb_gt in Hle.
    destruct (IH _ Hrest) as (j & Hj & Hub & Hlb).
    exists (S j). split; [done|]. split.
    + by replace (off + Z.of_nat (S j) + 1) with (off + 1 + Z.of_nat j + 1) by lia.
    + intros _. destruct j as [|j].
      * by replace (off + Z.of_nat 1) with (off + 1) by lia.
      * replace (off + Z.of_nat (S (S j))) with (off + 1 + Z.of_nat (S j)) by lia. apply Hlb. lia.
Qed.

(** The loop finds a bucket as soon as the last bound reaches the
    percentage. *)
Lemma first_bucket_is_Some (n p off : Z) (l : list A) :
  l ≠ [] → p ≤ ((off + Z.of_nat (length l)) * 100) / n →
  is_Some (first_bucket n p off l).
Proof.
  revert off. induction l as [|x l IH]; intros off Hne Hp; [done|]. simpl.
  destruct (p <=? (off + 1) * 100 / n) eqn:Hle; [eauto|].
  apply Z.leb_gt in Hle. destruct l as [|y l].
  - simpl in Hp. lia.
  - apply IH; [done|].
    by replace (off + 1 + Z.of_nat (length (y :: l)))
      with (off + Z.of_nat (length (x :: y :: l))) by (simpl length; lia).
Qed.

(** C3: for a percentage between 0 and 100 and a non-empty speed list
    without repetitions, the named speed picked for the percentage maps
    back to a percentage that is at most one bucket width (100 divided
    by the length of the list) away from it. *)
Theorem percentage_round_trip_within_bucket (ordered_list : list A) (p : Z) :
  ordered_list ≠ [] → NoDup ordered_list → 0 ≤ p ≤ 100 →
  ∃ (speed : A) (q : Z),
    percentage_to_ordered_list_item ordered_list p = Val speed
    ∧ ordered_list_item_to_percentage ordered_list speed = Val q
    ∧ Z.abs (q - p) * Z.of_nat (length ordered_list) ≤ 100.
Proof.
  intros Hne Hnd Hp.
  set (n := Z.of_nat (length ordered_list)).
  assert (Hn : 0 < n).
  { subst n. destruct ordered_list; [done|]. simpl length. lia. }
  destruct (first_bucket_is_Some n p 0 ordered_list Hne) as [speed Hs].
  { fold n. rewrite Z.add_0_l, Z.mul_comm, Z.div_mul by lia. lia. }
  destruct (first_bucket_Some _ _ _ _ _ Hs) as (j & Hj & Hub & Hlb).
  exists speed, ((Z.of_nat j + 1) * 100 / n).
  split; [|split].
  - unfold percentage_to_ordered_list_item.
    destruct ordered_list; [done|]. fold n. by rewrite Hs.
  - unfold ordered_list_item_to_percentage.
    by rewrite (list_index_NoDup _ _ _ Hnd Hj).
  - rewrite Z.add_0_l in Hub, Hlb.
    pose proof (Z.mul_div_le ((Z.of_nat j + 1) * 100) n Hn) as Ha.
    rewrite Z.abs_eq by lia.
    destruct j as [|j].
    + simpl in *. nia.
    + assert (Hlt : (Z.of_nat (S j) * 100) / n < p) by (apply Hlb; lia).
      pose proof (Z.mul_succ_div_gt (Z.of_nat (S j) * 100) n Hn) as Hb.
      nia.
Qed.
End util_percentage_facts.

Lemma percentage_round_trip_within_bucket_witness :
  ∃ (speed q : Z),
    percentage_to_ordered_list_item [1; 2; 3; 4; 5; 6; 7] 50 = Val speed
    ∧ ordered_list_item_to_percentage [1; 2; 3; 4; 5; 6; 7] speed = Val q
    ∧ Z.abs (q - 50) * Z.of_nat (length [1; 2; 3; 4; 5; 6; 7]) ≤ 100.
Proof.
  apply (percentage_round_trip_within_bucket [1; 2; 3; 4; 5; 6; 7] 50).
  - done.
  - by apply (bool_decide_unpack _).
  - lia.
Defined.

(** ** The speed step and the timer callback *)

Lemma count_calls_app (test : call → bool) (l l' : list call) :
  count_calls test (l ++ l') = (count_calls test l + count_calls test l')%nat.
Proof. unfold count_calls. by rewrite List.filter_app, length_app. Qed.

Section reconciliation.
Context `{Const}.

(** Ordering a coroutine object against an integer is a [TypeError]. *)
Lemma speed_missing_coroutine (c : coroutine) :
  speed_missing (VCoroutine c) = Exc TypeError.
Proof. reflexivity. Qed.

(** The speed step never gets past its first test: it raises and
    leaves the world as it found it. *)
Lemma update_speed_TypeError (w : World) :
  update_speed w = Raise TypeError w.
Proof. reflexivity. Qed.

(** C2: whatever value the condition cache holds for the speed, the
    speed step raises [TypeError], since it tests the coroutine object
    of the call that was not awaited; and the tests of the step, given
    a cached string, raise the same. *)
Theorem update_speed_raises_on_every_cached_speed (w : World) (v : pyval) :
  update_speed (with_condition SPEED_ENDPOINT v w)
    = Raise TypeError (with_condition SPEED_ENDPOINT v w)
  ∧ ∀ s : string, update_speed_with (VStr s) w = Raise TypeError w.
Proof. split; [apply update_speed_TypeError | reflexivity]. Qed.

(** C1: the timer callback raises [TypeError] in its speed step on
    every world, so it records no notification and changes no field,
    whatever the cache holds; and the preset step reports an update on
    every world without changing anything. *)
Theorem async_update_raises_and_preset_step_always_flags (w : World) :
  _async_update w = Raise TypeError w
  ∧ update_preset_mode w = Return true w.
Proof. split; reflexivity. Qed.

(** C5: a request for percentage 0 stores 0, builds the coroutine of
    [turn_off] without awaiting it, and asks the host for a refresh:
    the only call recorded is the notification, nothing is published. *)
Theorem set_percentage_zero_publishes_nothing (w : World) :
  async_set_percentage 0 w
    = Return tt {| fan := set__percentage (Some 0) (fan w);
                   coordinator := coordinator w;
                   calls := calls w ++ [schedule_update_ha_state] |}
  ∧ count_calls is_publish (calls (world_after (async_set_percentage 0 w)))
    = count_calls is_publish (calls w).
Proof.
  split; [reflexivity|].
  change (async_set_percentage 0 w)
    with (Return tt {| fan := set__percentage (Some 0) (fan w);
                       coordinator := coordinator w;
                       calls := calls w ++ [schedule_update_ha_state] |}).
  simpl world_after. simpl calls. rewrite count_calls_app.
  change (count_calls is_publish [schedule_update_ha_state]) with 0%nat. lia.
Qed.

(** Awaited, [turn_off] publishes the off sentinel to the state
    endpoint, retained and with quality of service 0. *)
Lemma await_turn_off (msg_info : MQTTMessageInfo) (w : World) :
  await co_turn_off msg_info w
    = Return (VBool true) (published STATE_ENDPOINT (VStr OPENAIR_STATE_OFF) w).
Proof. reflexivity. Qed.

(** C6: [publish] hands the message to the client library and returns
    true whatever the library reports back, and so do the four setters
    of the coordinator. *)
Theorem publish_returns_true_whatever_the_client_reports
    (endpoint : string) (msg : pyval) (number : Z) (text : string)
    (msg_info : MQTTMessageInfo) (w : World) :
  MqttClient_publish endpoint msg msg_info w = Return true (published endpoint msg w)
  ∧ Coordinator_speed (Some number) msg_info w
    = Return (VBool true) (published SPEED_ENDPOINT (VInt number) w)
  ∧ Coordinator_gate (Some number) msg_info w
    = Return (VBool true) (published GATE_ENDPOINT (VInt number) w)
  ∧ Coordinator_state (Some text) msg_info w
    = Return (VBool true) (published STATE_ENDPOINT (VStr text) w)
  ∧ Coordinator_workmode (Some text) msg_info w
    = Return (VBool true) (published WORKMODE_ENDPOINT (VStr text) w).
Proof. repeat split. Qed.

(** A request for a percentage other than 0 ends in an exception: the
    one of the speed step, or [ValueError] on an empty speed list. *)
Lemma async_set_percentage_raises (p : Z) (w : World) :
  p ≠ 0 →
  ∃ e, async_set_percentage p w = Raise e (with_percentage (Some p) w).
Proof.
  intros Hp. unfold async_set_percentage.
  cbn -[percentage_to_ordered_list_item]. rewrite (proj2 (Z.eqb_neq p 0) Hp).
  cbn -[percentage_to_ordered_list_item].
  destruct (percentage_to_ordered_list_item OPENAIR_SPEED_LIST p); cbn; eauto.
Qed.

(** Once the module has been imported the speed list is not empty, and
    the exception is the [TypeError] of the speed step. *)
Lemma async_set_percentage_TypeError (p : Z) (w : World) :
  fan_module_imports → p ≠ 0 →
  async_set_percentage p w = Raise TypeError (with_percentage (Some p) w).
Proof.
  intros [_ [named_speed Himp]] Hp. unfold async_set_percentage.
  cbn -[percentage_to_ordered_list_item]. rewrite (proj2 (Z.eqb_neq p 0) Hp).
  cbn -[percentage_to_ordered_list_item].
  unfold percentage_to_ordered_list_item in *.
  destruct OPENAIR_SPEED_LIST as [|x l]; [done|].
  by destruct (first_bucket _ p 0 (x :: l)).
Qed.

(** C10: after a request for a percentage above 0, however the request
    ends, the entity reports exactly the requested percentage, whether
    or not it is a bucket boundary of the speed list. *)
Theorem set_percentage_keeps_requested_value (p : Z) (w : World) :
  0 < p →
  percentage (fan (world_after (async_set_percentage p w))) = Some p.
Proof.
  intros Hp. destruct (async_set_percentage_raises p w) as [e ->]; [lia|].
  reflexivity.
Qed.
End reconciliation.

Lemma set_percentage_keeps_requested_value_witness :
  0 < 50
  ∧ percentage (fan (world_after
      (async_set_percentage (H := example_const) 50 (initial_world example_data))))
    = Some 50.
Proof.
  split; [lia|].
  apply (set_percentage_keeps_requested_value (H := example_const) 50). lia.
Defined.

(** 50 is no bucket boundary of a list of seven speeds. *)
Example fifty_is_no_bucket_boundary :
  Forall (λ named_speed,
            ordered_list_item_to_percentage (OPENAIR_SPEED_LIST (Const := example_const))
              named_speed ≠ Val 50)
         (OPENAIR_SPEED_LIST (Const := example_const)).
Proof. repeat constructor; by intros [=]. Qed.

(** ** The session and the coordinator *)

(** [l[-1]] is the last element of a non-empty list. *)
Lemma list_getitem_last {A : Type} (l : list A) (x : A) :
  last l = Some x → list_getitem l (-1) = Val x.
Proof.
  intros Hlast. unfold list_getitem.
  assert (Hlen : (0 < length l)%nat) by (destruct l; [done | simpl; lia]).
  rewrite last_lookup in Hlast.
  change (-1 <? 0) with true. cbv iota.
  replace (0 <=? Z.of_nat (length l) + -1) with true by lia.
  replace (Z.of_nat (length l) + -1 <? Z.of_nat (length l)) with true by lia.
  simpl andb. cbv iota.
  replace (Z.to_nat (Z.of_nat (length l) + -1)) with (pred (length l)) by lia.
  by rewrite Hlast.
Qed.

Lemma str_split_nonempty (sep : ascii) (s : string) : str_split sep s ≠ [].
Proof.
  destruct s as [|c s]; simpl; [done|].
  destruct (Ascii.eqb c sep); [done|]. by destruct (str_split sep s).
Qed.

Lemma last_is_Some {A : Type} (l : list A) : l ≠ [] → is_Some (last l).
Proof.
  intros Hne. rewrite last_lookup. apply lookup_lt_is_Some_2.
  destruct l; [done | simpl; lia].
Qed.

Section session.
Context `{Const}.

(** For an inbound message whose payload is valid UTF-8, the handler
    unsubscribes from the topic of the message and writes one entry of
    the condition cache, under the last segment of the topic: the
    integer the payload parses to, or else the payload as a string.
    Every other entry keeps its value. *)
Theorem on_message_writes_one_entry
    (int : string → option Z) (message : MQTTMessage) (w : World) :
  utf8_valid (payload message) = true →
  ∃ key : string,
    last (str_split "/" (topic message)) = Some key
    ∧ MqttClient_on_message int message w
      = Return tt
          {| fan := fan w;
             coordinator :=
               set_condition
                 (<[key := match int (payload message) with
                           | Some z => VInt z
                           | None => VStr (payload message)
                           end]> (condition (coordinator w)))
                 (coordinator w);
             calls := calls w ++ [client_unsubscribe (topic message)] |}
    ∧ ∀ other : string, other ≠ key →
        condition (coordinator (world_after (MqttClient_on_message int message w)))
          !! other
        = condition (coordinator w) !! other.
Proof.
  intros Hutf.
  destruct (last_is_Some (str_split "/" (topic message))) as [key Hkey].
  { apply str_split_nonempty. }
  exists key. split; [done|].
  assert (Hrun : MqttClient_on_message int message w
      = Return tt
          {| fan := fan w;
             coordinator :=
               set_condition
                 (<[key := match int (payload message) with
                           | Some z => VInt z
                           | None => VStr (payload message)
                           end]> (condition (coordinator w)))
                 (coordinator w);
             calls := calls w ++ [client_unsubscribe (topic message)] |}).
  { unfold MqttClient_on_message, bytes_decode.
    cbn -[list_getitem str_split utf8_valid].
    rewrite (list_getitem_last _ _ Hkey), Hutf. reflexivity. }
  split; [done|]. intros other Hother. rewrite Hrun. cbn.
  by rewrite lookup_insert_ne.
Qed.

Lemma bind_Return {A B : Type} (m : M A) (k : A → M B) (a : A) (w w' : World) :
  m w = Return a w' → (m ≫= k) w = k a w'.
Proof. intros Hm. unfold mbind, M_bind. by rewrite Hm. Qed.

Lemma emit_calls (c : call) (w : World) :
  emit c w = Return tt {| fan := fan w; coordinator := coordinator w;
                          calls := calls w ++ [c] |}.
Proof. reflexivity. Qed.

(** The connection attempt: one call of the library's [connect], no
    subscription, the objects untouched. *)
Lemma MqttClient_connect_spec (answer : connect_outcome) (w : World) :
  ∃ w' : World,
    MqttClient_connect answer w = Return (connected answer) w'
    ∧ fan w' = fan w ∧ coordinator w' = coordinator w
    ∧ count_calls is_connect (calls w') = S (count_calls is_connect (calls w))
    ∧ count_calls is_subscribe (calls w') = count_calls is_subscribe (calls w).
Proof.
  destruct answer;
    cbv [MqttClient_connect mbind M_bind get_world emit modify mret M_ret connected];
    (eexists; split; [reflexivity|]); simpl;
    rewrite !count_calls_app; unfold count_calls; simpl; repeat split; lia.
Qed.

(** A subscription: one call of the library's [subscribe], no
    connection, and the counter of the session one higher. *)
Lemma MqttClient_subscribe_spec (w : World) :
  ∃ w' : World,
    MqttClient_subscribe w = Return tt w'
    ∧ fan w' = fan w
    ∧ coordinator w'
      = set_mqttc (set_subscribes_count (S (subscribes_count (mqttc (coordinator w))))
                     (mqttc (coordinator w))) (coordinator w)
    ∧ count_calls is_connect (calls w') = count_calls is_connect (calls w)
    ∧ count_calls is_subscribe (calls w') = S (count_calls is_subscribe (calls w)).
Proof.
  cbv [MqttClient_subscribe mbind M_bind get_world emit modify modify_coordinator
         mret M_ret foldr ENDPOINTS].
  eexists; split; [reflexivity|]; simpl;
    rewrite !count_calls_app; unfold count_calls; simpl; repeat split; lia.
Qed.

Lemma async_login_cases (answer : connect_outcome) (w : World) :
  Coordinator_async_login answer w
  = if is_logged_in (coordinator w) then Return true w
    else (status ← MqttClient_connect answer;
          MqttClient_subscribe;;
          (if negb status then emit (logger ERROR "Auth error") else mret tt);;
          modify_coordinator (set_is_logged_in true);;
          mret status) w.
Proof.
  unfold Coordinator_async_login. cbv [mbind M_bind get_world].
  by destruct (is_logged_in (coordinator w)).
Qed.

(** C4: on a coordinator that is not logged in, the first login
    connects once and subscribes once, returns what the connection
    attempt reported and marks the coordinator logged in whether or not
    the connection succeeded; the second login returns true and leaves
    the world as it is. *)
Theorem async_login_twice (w : World) (first second : connect_outcome) :
  is_logged_in (coordinator w) = false →
  ∃ w1 : World,
    Coordinator_async_login first w = Return (connected first) w1
    ∧ is_logged_in (coordinator w1) = true
    ∧ count_calls is_connect (calls w1) = S (count_calls is_connect (calls w))
    ∧ count_calls is_subscribe (calls w1) = S (count_calls is_subscribe (calls w))
    ∧ subscribes_count (mqttc (coordinator w1))
      = S (subscribes_count (mqttc (coordinator w)))
    ∧ Coordinator_async_login second w1 = Return true w1.
Proof.
  intros Hout. rewrite !async_login_cases, Hout.
  destruct (MqttClient_connect_spec first w) as (wa & Ha & _ & Hca & Hna & Hsa).
  destruct (MqttClient_subscribe_spec wa) as (wb & Hb & _ & Hcb & Hnb & Hsb).
  rewrite (bind_Return _ _ _ _ _ Ha), (bind_Return _ _ _ _ _ Hb).
  destruct first; cbv [connected negb mbind M_bind mret M_ret emit modify modify_coordinator];
    (eexists; split; [reflexivity|]); simpl;
    rewrite ?count_calls_app, Hcb, Hca, Hnb, Hna, Hsb, Hsa; simpl;
    repeat split; unfold count_calls; simpl; lia.
Qed.
End session.

(** ** The on/off step and the preset command *)

Section commands.
Context `{Const}.

(** With the on sentinel in the cache, the on/off step flags a change
    when the entity's percentage is null or zero and clears an off
    preset; a null percentage becomes the percentage of
    [OPENAIR_SPEED_01], a zero percentage stays zero. *)
Theorem update_on_off_when_on (w : World) (first_percentage : Z) :
  condition (coordinator w) !! STATE_ENDPOINT = Some (VStr OPENAIR_STATE_ON) →
  ordered_list_item_to_percentage OPENAIR_SPEED_LIST OPENAIR_SPEED_01
    = Val first_percentage →
  percentage (fan w) = None ∨ percentage (fan w) = Some 0 →
  ∃ w' : World,
    update_on_off w = Return true w'
    ∧ percentage (fan w')
      = match percentage (fan w) with
        | None => Some first_percentage
        | Some _ => Some 0
        end
    ∧ preset_mode (fan w')
      = (if decide (preset_mode (fan w) = Some OPENAIR_STATE_OFF) then None
         else preset_mode (fan w))
    ∧ coordinator w' = coordinator w
    ∧ calls w' = calls w.
Proof.
  intros Hstate Hfirst Hp.
  unfold update_on_off, Coordinator_is_on, Coordinator_get_state, condition_getitem.
  unfold percentage, preset_mode in *.
  cbv [mbind M_bind get_world mret M_ret raise]. rewrite Hstate.
  cbv [py_eq]. rewrite String.eqb_refl. cbv [negb].
  destruct Hp as [Hp|Hp]; rewrite !Hp, ?Hfirst;
    destruct (decide (_preset_mode (fan w) = Some OPENAIR_STATE_OFF)) as [Hm|Hm];
    rewrite ?(bool_decide_eq_true_2 _ Hm), ?(bool_decide_eq_false_2 _ Hm);
    (eexists; split; [reflexivity|]); cbn; by rewrite ?Hp.
Qed.

(** C7: with the on sentinel in the cache and the entity at percentage
    0, the on/off step returns true and the percentage is still 0, not
    the percentage of any speed; unless the off preset is selected the
    step has changed nothing at all.  And the timer callback does not
    get as far as the step: on the same world it raises [TypeError]. *)
Theorem update_on_off_on_leaves_zero_percentage (w : World) :
  condition (coordinator w) !! STATE_ENDPOINT = Some (VStr OPENAIR_STATE_ON) →
  percentage (fan w) = Some 0 →
  ∃ w' : World,
    update_on_off w = Return true w'
    ∧ percentage (fan w') = Some 0
    ∧ (preset_mode (fan w) ≠ Some OPENAIR_STATE_OFF → w' = w)
    ∧ _async_update w = Raise TypeError w.
Proof.
  intros Hstate Hzero.
  unfold update_on_off, Coordinator_is_on, Coordinator_get_state, condition_getitem.
  unfold percentage, preset_mode in *.
  cbv [mbind M_bind get_world mret M_ret raise]. rewrite Hstate.
  cbv [py_eq]. rewrite String.eqb_refl. cbv [negb]. rewrite !Hzero.
  destruct (decide (_preset_mode (fan w) = Some OPENAIR_STATE_OFF)) as [Hm|Hm];
    rewrite ?(bool_decide_eq_true_2 _ Hm), ?(bool_decide_eq_false_2 _ Hm);
    (eexists; split; [reflexivity|]); cbn; repeat split; done.
Qed.

(** C9: the preset command raises [ValueError] exactly when the entity
    has no list of preset modes or the requested mode is not in it, it
    raises nothing else, and when it raises the world is unchanged. *)
Theorem set_preset_mode_validation (requested : string) (w : World) :
  ((∃ w', async_set_preset_mode requested w = Raise ValueError w')
     ↔ ¬ ∃ l, preset_modes (fan w) = Some l ∧ requested ∈ l)
  ∧ (∀ e w', async_set_preset_mode requested w = Raise e w' →
       e = ValueError ∧ w' = w).
Proof.
  unfold async_set_preset_mode, preset_modes.
  cbv [mbind M_bind get_world raise].
  destruct (_preset_modes (fan w)) as [l|] eqn:Hl.
  - destruct (decide (requested ∈ l)) as [Hin|Hin].
    + assert (Hne : l ≠ []) by (intros ->; by apply not_elem_of_nil in Hin).
      rewrite (bool_decide_eq_true_2 _ Hne), (bool_decide_eq_true_2 _ Hin).
      cbn. split.
      * split.
        -- intros [w' Hw']. by destruct (bool_decide _).
        -- intros Hno. destruct Hno. eauto.
      * intros e w'. by destruct (bool_decide _).
    + rewrite (bool_decide_eq_false_2 _ Hin), andb_false_r. split.
      * split; [|eauto]. intros _ (l' & [= <-] & Hin'). done.
      * by intros e w' [= <- <-].
  - split.
    + split; [|eauto]. by intros _ (l' & [=] & _).
    + by intros e w' [= <- <-].
Qed.
End commands.

(** ** What every method keeps

    A relation between the world before and the world after that the
    statements of a method keep is kept by the method. *)

Section keeps.
Context (R : relation World) `{!PreOrder R}.

Lemma keeps_at_ret {A : Type} (a : A) (w : World) : keeps_at R (mret a) w.
Proof. unfold keeps_at. simpl. reflexivity. Qed.

Lemma keeps_at_raise {A : Type} (e : exn) (w : World) : keeps_at R (@raise A e) w.
Proof. unfold keeps_at. simpl. reflexivity. Qed.

Lemma keeps_at_lift {A : Type} (r : res A) (w : World) : keeps_at R (lift r) w.
Proof. destruct r; [apply keeps_at_ret | apply keeps_at_raise]. Qed.

Lemma keeps_at_bind {A B : Type} (m : M A) (k : A → M B) (w : World) :
  keeps_at R m w →
  (∀ a w', m w = Return a w' → keeps_at R (k a) w') →
  keeps_at R (m ≫= k) w.
Proof.
  unfold keeps_at, mbind, M_bind. intros Hm Hk.
  destruct (m w) as [a w'|e w'] eqn:Hmw; simpl in *; [|done].
  etrans; [exact Hm|]. by apply Hk.
Qed.

(** Reading the world binds the world the method is in. *)
Lemma keeps_at_get_bind {B : Type} (k : World → M B) (w : World) :
  keeps_at R (k w) w → keeps_at R (get_world ≫= k) w.
Proof. done. Qed.

Lemma keeps_at_modify (f : World → World) (w : World) :
  R w (f w) → keeps_at R (modify f) w.
Proof. done. Qed.
End keeps.

Ltac head_of t :=
  lazymatch t with
  | ?f _ => head_of f
  | _ => t
  end.

(** Walk a method statement by statement.  [given] closes a statement
    the relation at hand has a lemma for, and is tried first; [prim]
    shows that the relation holds across a statement that writes the
    world. *)
Ltac keeps_walk given prim :=
  repeat first
    [ solve [given]
    | lazymatch goal with
      | |- keeps_at _ (mret _) _ => apply keeps_at_ret; typeclasses eauto
      | |- keeps_at _ (raise _) _ => apply keeps_at_raise; typeclasses eauto
      | |- keeps_at _ (lift _) _ => apply keeps_at_lift; typeclasses eauto
      | |- keeps_at _ (call_without_await _) _ => apply keeps_at_ret; typeclasses eauto
      | |- keeps_at _ (get_world ≫= _) _ => apply keeps_at_get_bind; cbv beta
      | |- keeps_at _ (_ ≫= _) _ =>
          apply keeps_at_bind; [typeclasses eauto| |intros ? ? ?]
      | |- keeps_at _ (modify _) _ => apply keeps_at_modify; solve [prim]
      | |- keeps_at _ (match ?x with _ => _ end) _ => destruct x eqn:?
      | |- keeps_at _ (fold_right _ _ _) _ => cbv [ENDPOINTS fold_right]
      | |- keeps_at _ ?m _ => let h := head_of m in progress unfold h
      end ].

(** State a fact about [run] as a fact about the method it runs. *)
Ltac as_method :=
  unfold run;
  lazymatch goal with
  | |- ?R ?w (world_after (?m ?w)) => change (keeps_at R m w)
  end.

#[local] Instance same_static_fields_preorder : PreOrder same_static_fields.
Proof.
  split.
  - by intros w.
  - intros w1 w2 w3 (?&?&?&?&?&?) (?&?&?&?&?&?). repeat split; congruence.
Qed.

#[local] Instance same_entity_preorder : PreOrder same_entity.
Proof. split; unfold same_entity; [done | congruence]. Qed.

#[local] Instance same_coordinator_and_client_calls_preorder :
  PreOrder same_coordinator_and_client_calls.
Proof.
  split; [done|]. intros w1 w2 w3 [? ?] [? ?]. split; congruence.
Qed.

#[local] Instance same_condition_preorder : PreOrder same_condition.
Proof. split; unfold same_condition; [done | congruence]. Qed.

#[local] Instance keys_stay_preorder : PreOrder keys_stay.
Proof.
  split; [by intros w key|]. intros w1 w2 w3 H12 H23 key Hkey. by apply H23, H12.
Qed.

#[local] Instance preset_stays_known_preorder : PreOrder preset_stays_known.
Proof.
  split; [done|]. intros w1 w2 w3 [? ?] [? ?]. split; [congruence | eauto].
Qed.

#[local] Instance same_count_preorder (test : call → bool) : PreOrder (same_count test).
Proof. split; unfold same_count; [done | congruence]. Qed.

#[local] Instance same_session_preorder : PreOrder same_session.
Proof.
  split; [done|]. unfold same_session, same_count.
  intros w1 w2 w3 (?&?&?) (?&?&?). repeat split; congruence.
Qed.

#[local] Instance counter_tracks_subscriptions_preorder :
  PreOrder counter_tracks_subscriptions.
Proof.
  split; unfold counter_tracks_subscriptions; [done|]. intros w1 w2 w3 ? ?. lia.
Qed.

(** Splitting at a separator splits each side of it. *)
Lemma str_split_app (sep : ascii) (s1 s2 : string) :
  str_split sep (s1 +:+ String sep s2) = str_split sep s1 ++ str_split sep s2.
Proof.
  induction s1 as [|c s1 IH]; simpl.
  - by rewrite Ascii.eqb_refl.
  - destruct (Ascii.eqb c sep); [by rewrite IH|].
    rewrite IH. pose proof (str_split_nonempty sep s1) as Hne.
    by destruct (str_split sep s1).
Qed.

(** The last segment of [base/endpoint] is the endpoint, for each of
    the six endpoints. *)
Lemma message_key_endpoint (base endpoint text : string) :
  endpoint ∈ ENDPOINTS →
  message_key {| topic := base +:+ "/" +:+ endpoint; payload := text |}
  = Some endpoint.
Proof.
  intros Hin. unfold message_key. cbn [topic].
  change ("/" +:+ endpoint) with (String "/" endpoint).
  rewrite str_split_app, last_app.
  unfold ENDPOINTS in Hin. set_unfold in Hin.
  by destruct Hin as [->|[->|[->|[->|[->|[->|[]]]]]]].
Qed.

Section invariants.
Context `{Const}.
Variable int : string → option Z.

(** A relation every operation keeps is kept by every sequence of
    operations; one kept by the operations that pass a test, by every
    sequence of such operations. *)
Lemma run_all_keeps (R : relation World) `{!PreOrder R} (test : operation → bool) :
  (∀ op w, test op = true → R w (run int op w)) →
  ∀ ops w, Forall (λ op, test op = true) ops → R w (run_all int ops w).
Proof.
  intros Hop ops. induction ops as [|op ops IH]; intros w Hall; simpl.
  - reflexivity.
  - inversion_clear Hall as [|? ? Hhd Htl].
    etrans; [apply (Hop op w Hhd)|]. by apply IH.
Qed.

Lemma run_same_static_fields (op : operation) (w : World) :
  same_static_fields w (run int op w).
Proof. destruct op; as_method; keeps_walk fail ltac:(repeat split). Qed.

(** X6: no method writes the entity's supported features, its list of
    preset modes, its oscillation or its direction, nor the
    configuration of the session: after any sequence of operations they
    are what they were. *)
Theorem static_fields_never_change (ops : list operation) (w : World) :
  _attr_supported_features (fan (run_all int ops w)) = _attr_supported_features (fan w)
  ∧ _preset_modes (fan (run_all int ops w)) = _preset_modes (fan w)
  ∧ _oscillating (fan (run_all int ops w)) = _oscillating (fan w)
  ∧ _direction (fan (run_all int ops w)) = _direction (fan w)
  ∧ data (mqttc (coordinator (run_all int ops w))) = data (mqttc (coordinator w))
  ∧ is_run (mqttc (coordinator (run_all int ops w))) = is_run (mqttc (coordinator w)).
Proof.
  apply (run_all_keeps same_static_fields (λ _, true)).
  - intros op w' _. apply run_same_static_fields.
  - by apply Forall_forall.
Qed.

Lemma run_same_entity (op : operation) (w : World) :
  is_entity_method op = false → same_entity w (run int op w).
Proof.
  destruct op; intros [=]; as_method; keeps_walk fail ltac:(reflexivity).
Qed.

(** X7: the callbacks of the session and the methods of the coordinator
    never touch the entity. *)
Theorem coordinator_side_never_touches_entity (ops : list operation) (w : World) :
  Forall (λ op, is_entity_method op = false) ops →
  fan (run_all int ops w) = fan w.
Proof.
  intros Hops.
  apply (run_all_keeps same_entity (λ op, negb (is_entity_method op))).
  - intros op w' Hop. apply run_same_entity. by destruct (is_entity_method op).
  - eapply Forall_impl; [exact Hops|]. by intros op ->.
Qed.

Lemma run_same_coordinator_and_client_calls (op : operation) (w : World) :
  is_entity_method op = true → same_coordinator_and_client_calls w (run int op w).
Proof.
  destruct op; intros [=]; as_method;
    keeps_walk fail
      ltac:(split; simpl; rewrite ?List.filter_app; simpl; by rewrite ?app_nil_r).
Qed.

(** X8: no method of the entity changes the coordinator or calls the
    MQTT client: whatever the commands and the timer callback do, no
    connect, subscribe, unsubscribe or publish is made. *)
Theorem entity_methods_never_reach_the_client (ops : list operation) (w : World) :
  Forall (λ op, is_entity_method op = true) ops →
  coordinator (run_all int ops w) = coordinator w
  ∧ List.filter is_client_call (calls (run_all int ops w))
    = List.filter is_client_call (calls w).
Proof.
  intros Hops.
  apply (run_all_keeps same_coordinator_and_client_calls is_entity_method); [|done].
  intros op w' Hop. by apply run_same_coordinator_and_client_calls.
Qed.

Lemma run_same_condition (op : operation) (w : World) :
  is_on_message op = false → same_condition w (run int op w).
Proof.
  destruct op; intros [=]; as_method; keeps_walk fail ltac:(reflexivity).
Qed.

(** X9: the condition cache is written by the message handler alone. *)
Theorem condition_written_only_by_on_message (ops : list operation) (w : World) :
  Forall (λ op, is_on_message op = false) ops →
  condition (coordinator (run_all int ops w)) = condition (coordinator w).
Proof.
  intros Hops.
  apply (run_all_keeps same_condition (λ op, negb (is_on_message op))).
  - intros op w' Hop. apply run_same_condition. by destruct (is_on_message op).
  - eapply Forall_impl; [exact Hops|]. by intros op ->.
Qed.
Lemma run_keys_stay (op : operation) (w : World) : keys_stay w (run int op w).
Proof.
  destruct op; as_method;
    keeps_walk fail
      ltac:(intros key Hkey; cbn [condition coordinator set_condition];
            rewrite ?lookup_insert_is_Some'; auto).
Qed.

(** X10: a key of the condition cache is never removed, so from the
    world the constructors leave, after any sequence of operations, the
    six getters of the coordinator and [is_on] return and raise no
    [KeyError]. *)
Theorem getters_never_raise_KeyError
    (data : ConfigData) (ops : list operation) (endpoint : string) :
  endpoint ∈ ENDPOINTS →
  (∃ value, condition_getitem endpoint (run_all int ops (initial_world data))
            = Return value (run_all int ops (initial_world data)))
  ∧ (∃ on, Coordinator_is_on (run_all int ops (initial_world data))
           = Return on (run_all int ops (initial_world data))).
Proof.
  intros Hin.
  assert (Hkeys : ∀ key, key ∈ ENDPOINTS →
            is_Some (condition (coordinator (run_all int ops (initial_world data))) !! key)).
  { intros key Hkey.
    apply (run_all_keeps keys_stay (λ _, true)) with (w := initial_world data) (ops := ops).
    - intros op w' _. apply run_keys_stay.
    - by apply Forall_forall.
    - unfold ENDPOINTS in Hkey. set_unfold in Hkey.
      destruct Hkey as [->|[->|[->|[->|[->|[->|[]]]]]]]; by eexists. }
  split.
  - destruct (Hkeys endpoint Hin) as [value Hvalue]. exists value.
    unfold condition_getitem. cbv [mbind M_bind get_world]. by rewrite Hvalue.
  - destruct (Hkeys STATE_ENDPOINT) as [value Hvalue].
    { unfold ENDPOINTS. by repeat constructor. }
    eexists. unfold Coordinator_is_on, Coordinator_get_state, condition_getitem.
    cbv [mbind M_bind get_world]. rewrite Hvalue. reflexivity.
Qed.

Ltac preset_is_member :=
  match goal with
  | Hm : preset_modes _ = Some ?modes,
    Hb : (_ && bool_decide (_ ∈ ?modes)) = true |- _ =>
      exists modes; split; [exact Hm|];
      apply andb_true_iff in Hb as [_ Hb]; by apply bool_decide_eq_true in Hb
  end.

Lemma run_preset_stays_known (op : operation) (w : World) :
  preset_stays_known w (run int op w).
Proof.
  destruct op; as_method;
    keeps_walk fail
      ltac:(split; [reflexivity|]; unfold preset_mode_known; simpl;
            first [done | intros _; preset_is_member]).
Qed.

(** X11: the preset mode of the entity is always absent or one of its
    preset modes: no sequence of operations leaves it at a mode outside
    the list. *)
Theorem preset_mode_stays_known (ops : list operation) (w : World) :
  preset_mode_known (fan w) → preset_mode_known (fan (run_all int ops w)).
Proof.
  apply (run_all_keeps preset_stays_known (λ _, true)).
  - intros op w' _. apply run_preset_stays_known.
  - by apply Forall_forall.
Qed.
(** *** Counting the calls to the client *)

Lemma run_same_session (op : operation) (w : World) :
  is_login op = false → is_refresh op = false → is_try_connect op = false →
  same_session w (run int op w).
Proof.
  destruct op; intros [=] [=] [=]; as_method;
    keeps_walk fail
      ltac:(repeat split; unfold same_count; simpl;
            rewrite ?count_calls_app; unfold count_calls; simpl; lia).
Qed.

Lemma run_refresh (op : operation) (w : World) :
  is_refresh op = true →
  is_logged_in (coordinator (run int op w)) = is_logged_in (coordinator w)
  ∧ count_calls is_connect (calls (run int op w)) = count_calls is_connect (calls w)
  ∧ count_calls is_subscribe (calls (run int op w))
    = S (count_calls is_subscribe (calls w)).
Proof.
  destruct (MqttClient_subscribe_spec w) as (w' & Hw' & _ & Hc & Hn & Hs).
  assert (Hget : MqttClient_get_condition w = Return (condition (coordinator w')) w').
  { unfold MqttClient_get_condition. by rewrite (bind_Return _ _ _ _ _ Hw'). }
  destruct op; intros [=]; unfold run;
    unfold Coordinator__async_update_data, Coordinator__async_update;
    rewrite (bind_Return _ _ _ _ _ Hget); simpl;
    by rewrite Hc, Hn, Hs.
Qed.

Lemma run_try_connect (answer : connect_outcome) (w : World) :
  is_logged_in (coordinator (run int (try_connect_op answer) w))
  = is_logged_in (coordinator w)
  ∧ count_calls is_connect (calls (run int (try_connect_op answer) w))
    = S (count_calls is_connect (calls w))
  ∧ count_calls is_subscribe (calls (run int (try_connect_op answer) w))
    = count_calls is_subscribe (calls w).
Proof.
  destruct answer; unfold run, MqttClient_try_connect;
    cbv [mbind M_bind mret M_ret get_world emit modify world_after];
    simpl; rewrite !count_calls_app; unfold count_calls; simpl; repeat split; lia.
Qed.

Lemma run_login (answer : connect_outcome) (w : World) :
  is_logged_in (coordinator (run int (async_login_op answer) w)) = true
  ∧ count_calls is_connect (calls (run int (async_login_op answer) w))
    = (count_calls is_connect (calls w)
       + if is_logged_in (coordinator w) then 0 else 1)%nat
  ∧ count_calls is_subscribe (calls (run int (async_login_op answer) w))
    = (count_calls is_subscribe (calls w)
       + if is_logged_in (coordinator w) then 0 else 1)%nat.
Proof.
  unfold run. rewrite async_login_cases.
  destruct (is_logged_in (coordinator w)) eqn:Hlog; simpl; [by rewrite Hlog, !Nat.add_0_r|].
  destruct (MqttClient_connect_spec answer w) as (wa & Ha & _ & Hca & Hna & Hsa).
  destruct (MqttClient_subscribe_spec wa) as (wb & Hb & _ & Hcb & Hnb & Hsb).
  rewrite (bind_Return _ _ _ _ _ Ha), (bind_Return _ _ _ _ _ Hb).
  destruct answer; simpl; rewrite ?count_calls_app, Hnb, Hna, Hsb, Hsa;
    unfold count_calls; simpl; repeat split; lia.
Qed.

(** X12: a login connects and subscribes only while the coordinator is
    not logged in, and leaves it logged in; [try_connect] connects every
    time it is called and neither subscribes nor logs in; every refresh
    subscribes once more; nothing else connects or subscribes.  So over
    any sequence of operations the client is asked to connect once for
    the first login and once per [try_connect], and to subscribe once
    per refresh and once for the first login. *)
Theorem session_accounting (ops : list operation) (w : World) :
  is_logged_in (coordinator (run_all int ops w))
    = is_logged_in (coordinator w) || existsb is_login ops
  ∧ count_calls is_connect (calls (run_all int ops w))
    = (count_calls is_connect (calls w)
       + length (List.filter is_try_connect ops) + first_login w ops)%nat
  ∧ count_calls is_subscribe (calls (run_all int ops w))
    = (count_calls is_subscribe (calls w)
       + length (List.filter is_refresh ops) + first_login w ops)%nat.
Proof.
  unfold first_login. revert w. induction ops as [|op ops IH]; intros w.
  - simpl. rewrite orb_false_r, andb_false_r. repeat split; lia.
  - change (run_all int (op :: ops) w) with (run_all int ops (run int op w)).
    destruct (IH (run int op w)) as (Hl & Hc & Hs). rewrite Hl, Hc, Hs. clear IH Hl Hc Hs.
    simpl existsb. simpl List.filter.
    destruct (is_login op) eqn:Hlogin.
    + destruct op; try discriminate.
      destruct (run_login answer w) as (-> & -> & ->).
      destruct (is_logged_in (coordinator w)); simpl; repeat split; lia.
    + destruct (is_refresh op) eqn:Hrefresh.
      * destruct (run_refresh op w Hrefresh) as (-> & -> & ->).
        destruct op; try discriminate; simpl;
          destruct (negb _ && _); repeat split; lia.
      * destruct (is_try_connect op) eqn:Htry.
        -- destruct op; try discriminate.
           destruct (run_try_connect answer w) as (-> & -> & ->). simpl.
           destruct (negb _ && _); repeat split; lia.
        -- destruct (run_same_session op w Hlogin Hrefresh Htry) as (-> & -> & ->).
           simpl. repeat split; lia.
Qed.

Lemma subscribe_tracks (w : World) :
  keeps_at counter_tracks_subscriptions MqttClient_subscribe w.
Proof.
  destruct (MqttClient_subscribe_spec w) as (w' & Hw' & _ & Hc & _ & Hs).
  unfold keeps_at, counter_tracks_subscriptions. rewrite Hw'. simpl world_after.
  rewrite Hc, Hs. simpl. lia.
Qed.

Lemma run_counter_tracks (op : operation) (w : World) :
  counter_tracks_subscriptions w (run int op w).
Proof.
  destruct op; as_method;
    keeps_walk
      ltac:(idtac;
            lazymatch goal with
            | |- keeps_at _ MqttClient_subscribe _ => apply subscribe_tracks
            end)
      ltac:(unfold counter_tracks_subscriptions; simpl;
            rewrite ?count_calls_app; unfold count_calls; simpl; lia).
Qed.

(** X13: the counter of the session counts the subscriptions: where it
    equals the number of subscribe calls made to the client, it still
    does after any sequence of operations. *)
Theorem subscribes_count_counts_subscriptions (ops : list operation) (w : World) :
  subscribes_count (mqttc (coordinator w)) = count_calls is_subscribe (calls w) →
  subscribes_count (mqttc (coordinator (run_all int ops w)))
  = count_calls is_subscribe (calls (run_all int ops w)).
Proof.
  intros Hw.
  assert (Hrun : counter_tracks_subscriptions w (run_all int ops w)).
  { apply (run_all_keeps counter_tracks_subscriptions (λ _, true)).
    - intros op w' _. apply run_counter_tracks.
    - by apply Forall_forall. }
  unfold counter_tracks_subscriptions in Hrun. lia.
Qed.
(** Where every operation adds one call of a kind when it is marked
    and none otherwise, a sequence adds as many as it has marked
    operations. *)
Lemma run_all_counts (test : call → bool) (marked : operation → bool) :
  (∀ op w, count_calls test (calls (run int op w))
           = (count_calls test (calls w) + if marked op then 1 else 0)%nat) →
  ∀ ops w, count_calls test (calls (run_all int ops w))
           = (count_calls test (calls w) + length (List.filter marked ops))%nat.
Proof.
  intros Hop ops. induction ops as [|op ops IH]; intros w.
  - simpl. lia.
  - change (run_all int (op :: ops) w) with (run_all int ops (run int op w)).
    rewrite IH, Hop. simpl List.filter. destruct (marked op); simpl; lia.
Qed.

Lemma run_same_publishes (op : operation) (w : World) :
  is_awaited_setter op = false → same_count is_publish w (run int op w).
Proof.
  destruct op; intros Hop; try destruct c as [[?|]|[?|]|[?|]|[?|]| |];
    try discriminate Hop; as_method;
    keeps_walk fail
      ltac:(unfold same_count; simpl; rewrite ?count_calls_app;
            unfold count_calls; simpl; lia).
Qed.

Lemma run_awaited_setter (c : coroutine) (msg_info : MQTTMessageInfo) (w : World) :
  is_setter c = true →
  count_calls is_publish (calls (run int (await_op c msg_info) w))
  = S (count_calls is_publish (calls w)).
Proof.
  destruct c as [[?|]|[?|]|[?|]|[?|]| |]; intros [=];
    match goal with
    | |- count_calls _ (calls (run _ (await_op ?c _) ?w)) = _ =>
        change (run int (await_op c msg_info) w)
          with (world_after (await c msg_info w))
    end;
    match goal with
    | |- context [world_after (await ?c ?i ?w)] =>
        let r := eval cbv [await Coordinator_speed Coordinator_gate Coordinator_state
                           Coordinator_workmode Coordinator_turn_on Coordinator_turn_off
                           MqttClient_publish mbind M_bind mret M_ret get_world emit
                           modify world_after] in (world_after (await c i w)) in
        change (world_after (await c i w)) with r
    end;
    simpl calls; rewrite count_calls_app; unfold count_calls; simpl; lia.
Qed.

(** X14: the client is asked to publish once for every awaited call of
    a setter ([speed], [gate], [state], [workmode] with a value, [turn_on],
    [turn_off]) and never otherwise: no command of the entity, no login,
    no refresh and no inbound message publishes. *)
Theorem publishes_are_the_awaited_setters (ops : list operation) (w : World) :
  count_calls is_publish (calls (run_all int ops w))
  = (count_calls is_publish (calls w) + length (List.filter is_awaited_setter ops))%nat.
Proof.
  apply run_all_counts. clear ops w. intros op w.
  destruct (is_awaited_setter op) eqn:Hop.
  - destruct op; try discriminate Hop. rewrite run_awaited_setter by done. lia.
  - rewrite (run_same_publishes op w Hop). lia.
Qed.

Lemma run_same_notifications (op : operation) (w : World) :
  never_notifies op = true → same_count is_notification w (run int op w).
Proof.
  destruct op; intros [=]; as_method;
    keeps_walk
      ltac:(idtac;
            match goal with
            | |- keeps_at _ update_speed ?w =>
                unfold keeps_at; rewrite (update_speed_TypeError w); reflexivity
            | Hrun : update_speed ?w = Return _ _ |- _ =>
                by rewrite (update_speed_TypeError w) in Hrun
            end)
      ltac:(unfold same_count; simpl; rewrite ?count_calls_app;
            unfold count_calls; simpl; lia).
Qed.

(** X22: the host is notified by [update_all_options] and by the three
    commands that call it, and by nothing else: no inbound message, no
    login, no refresh, and neither the timer callback of the entity nor
    [async_turn_off], which both stop at the speed step. *)
Theorem telemetry_and_ticks_never_notify (ops : list operation) (w : World) :
  Forall (λ op, never_notifies op = true) ops →
  count_calls is_notification (calls (run_all int ops w))
  = count_calls is_notification (calls w).
Proof.
  intros Hops.
  apply (run_all_keeps (same_count is_notification) never_notifies); [|done].
  intros op w' Hop. by apply run_same_notifications.
Qed.

(** *** Inbound messages *)

(** The two ways the handler ends. *)
Lemma on_message_cases (message : MQTTMessage) (w : World) :
  ∃ key : string,
    message_key message = Some key
    ∧ MqttClient_on_message int message w
      = if utf8_valid (payload message) then
          Return tt
            {| fan := fan w;
               coordinator :=
                 set_condition
                   (<[key := stored int (payload message)]> (condition (coordinator w)))
                   (coordinator w);
               calls := calls w ++ [client_unsubscribe (topic message)] |}
        else
          Raise UnicodeDecodeError
            {| fan := fan w;
               coordinator := coordinator w;
               calls := calls w ++ [client_unsubscribe (topic message)] |}.
Proof.
  destruct (last_is_Some (str_split "/" (topic message))) as [key Hkey].
  { apply str_split_nonempty. }
  exists key. split; [done|].
  unfold MqttClient_on_message, bytes_decode.
  cbn -[list_getitem str_split utf8_valid].
  rewrite (list_getitem_last _ _ Hkey).
  by destruct (utf8_valid (payload message)).
Qed.

(** C8: for every inbound message the handler unsubscribes from the
    topic of the message; when the payload is valid UTF-8 it then writes
    the one entry of the condition cache, under the last segment of the
    topic; when the payload is not, it raises [UnicodeDecodeError] and
    has written no entry. *)
Theorem on_message_unsubscribes_then_writes_or_raises
    (message : MQTTMessage) (w : World) :
  ∃ key : string,
    message_key message = Some key
    ∧ calls (world_after (MqttClient_on_message int message w))
      = calls w ++ [client_unsubscribe (topic message)]
    ∧ (utf8_valid (payload message) = true →
         MqttClient_on_message int message w
         = Return tt
             {| fan := fan w;
                coordinator :=
                  set_condition
                    (<[key := stored int (payload message)]> (condition (coordinator w)))
                    (coordinator w);
                calls := calls w ++ [client_unsubscribe (topic message)] |})
    ∧ (utf8_valid (payload message) = false →
         MqttClient_on_message int message w
         = Raise UnicodeDecodeError
             {| fan := fan w;
                coordinator := coordinator w;
                calls := calls w ++ [client_unsubscribe (topic message)] |}).
Proof.
  destruct (on_message_cases message w) as (key & Hkey & Hrun).
  exists key. split; [done|]. rewrite Hrun.
  destruct (utf8_valid (payload message)); repeat split; done.
Qed.

Lemma run_same_unsubscribes (op : operation) (w : World) :
  is_on_message op = false → same_count is_unsubscribe w (run int op w).
Proof.
  destruct op; intros [=]; as_method;
    keeps_walk fail
      ltac:(unfold same_count; simpl; rewrite ?count_calls_app;
            unfold count_calls; simpl; lia).
Qed.

(** X15: every inbound message makes the handler unsubscribe from its
    topic exactly once, whether or not the payload can be decoded, and
    nothing else unsubscribes. *)
Theorem unsubscribes_are_the_messages (ops : list operation) (w : World) :
  count_calls is_unsubscribe (calls (run_all int ops w))
  = (count_calls is_unsubscribe (calls w) + length (List.filter is_on_message ops))%nat.
Proof.
  apply run_all_counts. clear ops w. intros op w.
  destruct (is_on_message op) eqn:Hop.
  - destruct op; try discriminate Hop. unfold run.
    destruct (on_message_cases message w) as (key & _ & ->).
    destruct (utf8_valid (payload message)); simpl;
      rewrite count_calls_app; unfold count_calls; simpl; lia.
  - rewrite (run_same_unsubscribes op w Hop). lia.
Qed.
(** X1: the handler raises exactly when the payload is not valid UTF-8;
    it then raises [UnicodeDecodeError] and leaves the entity and the
    coordinator, the cache included, as they were. *)
Theorem on_message_raises_iff_not_utf8 (message : MQTTMessage) (w : World) :
  ((∃ e w', MqttClient_on_message int message w = Raise e w')
     ↔ utf8_valid (payload message) = false)
  ∧ (∀ e w', MqttClient_on_message int message w = Raise e w' →
       e = UnicodeDecodeError ∧ fan w' = fan w ∧ coordinator w' = coordinator w).
Proof.
  destruct (on_message_cases message w) as (key & _ & ->).
  destruct (utf8_valid (payload message)); split.
  - split; [by intros (e & w' & [=]) | done].
  - by intros e w' [=].
  - split; [done | eauto].
  - by intros e w' [= <- <-].
Qed.

(** The slot of an endpoint after a message on its topic. *)
Lemma slot_after_message (base endpoint text : string) (w : World) :
  endpoint ∈ ENDPOINTS → utf8_valid text = true →
  condition_getitem endpoint
    (world_after (MqttClient_on_message int
       {| topic := base +:+ "/" +:+ endpoint; payload := text |} w))
  = Return (stored int text)
      (world_after (MqttClient_on_message int
         {| topic := base +:+ "/" +:+ endpoint; payload := text |} w)).
Proof.
  intros Hin Hutf.
  destruct (on_message_cases
              {| topic := base +:+ "/" +:+ endpoint; payload := text |} w)
    as (key & Hkey & ->).
  rewrite (message_key_endpoint base endpoint text Hin) in Hkey.
  injection Hkey as <-. cbn [payload]. rewrite Hutf. cbn [world_after].
  unfold condition_getitem. cbv [mbind M_bind get_world].
  cbn [coordinator condition set_condition]. by rewrite lookup_insert_eq.
Qed.

(** X2: a message on [base/endpoint], for any of the six endpoints the
    session subscribes to, lands in the slot the getter of that endpoint
    reads: after the handler the getter returns the value of the
    payload, and the accessor awaited without a value returns the
    same. *)
Theorem on_message_fills_the_slot_of_its_endpoint
    (base endpoint text : string) (msg_info : MQTTMessageInfo) (w : World) :
  endpoint ∈ ENDPOINTS → utf8_valid text = true →
  condition_getitem endpoint
    (world_after (MqttClient_on_message int
       {| topic := base +:+ "/" +:+ endpoint; payload := text |} w))
  = Return (stored int text)
      (world_after (MqttClient_on_message int
         {| topic := base +:+ "/" +:+ endpoint; payload := text |} w))
  ∧ await (co_speed None) msg_info
      (world_after (MqttClient_on_message int
         {| topic := base +:+ "/" +:+ SPEED_ENDPOINT; payload := text |} w))
    = Return (stored int text)
        (world_after (MqttClient_on_message int
           {| topic := base +:+ "/" +:+ SPEED_ENDPOINT; payload := text |} w)).
Proof.
  intros Hin Hutf. split; [by apply slot_after_message|].
  apply (slot_after_message base SPEED_ENDPOINT text w); [|done].
  unfold ENDPOINTS. by repeat constructor.
Qed.

(** What a message leaves in the cache. *)
Lemma condition_after_message (message : MQTTMessage) (w : World) :
  ∃ key : string,
    message_key message = Some key
    ∧ condition (coordinator (run int (on_message_op message) w))
      = if utf8_valid (payload message)
        then <[key := stored int (payload message)]> (condition (coordinator w))
        else condition (coordinator w).
Proof.
  destruct (on_message_cases message w) as (key & Hkey & Hrun).
  exists key. split; [done|]. unfold run. rewrite Hrun.
  by destruct (utf8_valid (payload message)).
Qed.

(** X3: messages for different slots can arrive in either order: the
    cache ends up the same. *)
Theorem telemetry_for_different_slots_commutes (m1 m2 : MQTTMessage) (w : World) :
  message_key m1 ≠ message_key m2 →
  condition (coordinator (run_all int [on_message_op m1; on_message_op m2] w))
  = condition (coordinator (run_all int [on_message_op m2; on_message_op m1] w)).
Proof.
  intros Hne. cbn [run_all foldl].
  destruct (condition_after_message m2 (run int (on_message_op m1) w)) as (k2 & Hk2 & ->).
  destruct (condition_after_message m1 (run int (on_message_op m2) w)) as (k1 & Hk1 & ->).
  destruct (condition_after_message m1 w) as (k1' & Hk1' & ->).
  destruct (condition_after_message m2 w) as (k2' & Hk2' & ->).
  rewrite Hk1 in Hk1'. rewrite Hk2 in Hk2'. injection Hk1' as <-. injection Hk2' as <-.
  assert (k1 ≠ k2) by congruence.
  destruct (utf8_valid (payload m1)), (utf8_valid (payload m2)); try done.
  by apply insert_insert_ne.
Qed.

(** X4: for one slot the last message wins: what an earlier message for
    the same slot stored is overwritten. *)
Theorem last_telemetry_wins (m1 m2 : MQTTMessage) (w : World) :
  message_key m1 = message_key m2 → utf8_valid (payload m2) = true →
  condition (coordinator (run_all int [on_message_op m1; on_message_op m2] w))
  = condition (coordinator (run_all int [on_message_op m2] w)).
Proof.
  intros Hsame Hutf. cbn [run_all foldl].
  destruct (condition_after_message m2 (run int (on_message_op m1) w)) as (k2 & Hk2 & ->).
  destruct (condition_after_message m1 w) as (k1 & Hk1 & ->).
  destruct (condition_after_message m2 w) as (k2' & Hk2' & ->).
  rewrite Hk2 in Hk2'. injection Hk2' as <-.
  rewrite Hsame, Hk2 in Hk1. injection Hk1 as <-.
  rewrite Hutf. destruct (utf8_valid (payload m1)); [|done].
  by rewrite insert_insert_eq.
Qed.

(** X5: after a message on the state topic, [is_on] is true exactly
    when the payload is the on sentinel kept as a string: a payload that
    parses as an integer never counts as on. *)
Theorem is_on_after_state_message (base text : string) (w : World) :
  utf8_valid text = true →
  ∃ on : bool,
    Coordinator_is_on
      (world_after (MqttClient_on_message int
         {| topic := base +:+ "/" +:+ STATE_ENDPOINT; payload := text |} w))
    = Return on
        (world_after (MqttClient_on_message int
           {| topic := base +:+ "/" +:+ STATE_ENDPOINT; payload := text |} w))
    ∧ (on = true ↔ int text = None ∧ text = OPENAIR_STATE_ON).
Proof.
  intros Hutf.
  assert (Hin : STATE_ENDPOINT ∈ ENDPOINTS) by (unfold ENDPOINTS; by repeat constructor).
  pose proof (slot_after_message base STATE_ENDPOINT text w Hin Hutf) as Hget.
  exists (py_eq (stored int text) (VStr OPENAIR_STATE_ON)). split.
  - unfold Coordinator_is_on, Coordinator_get_state.
    by rewrite (bind_Return _ _ _ _ _ Hget).
  - unfold stored. destruct (int text) as [z|]; simpl.
    + split; [done | by intros [[=] _]].
    + rewrite String.eqb_eq. split; [by intros -> | by intros [_ ->]].
Qed.
End invariants.

(** ** The steps of the reconciliation and the commands *)

Lemma py_eq_VStr (v : pyval) (s : string) : py_eq v (VStr s) = true ↔ v = VStr s.
Proof.
  destruct v as [|b|z|t|c]; simpl; try (split; [done | by intros [=]]).
  rewrite String.eqb_eq. split; [by intros -> | by intros [= ->]].
Qed.

Section steps.
Context `{Const}.

(** X16: with anything but the on sentinel in the state slot, the
    on/off step takes a percentage above 0 down to 0 and flags it, and
    otherwise changes nothing and flags nothing; run again, it flags
    nothing. *)
Theorem update_on_off_when_off (w : World) (state : pyval) :
  condition (coordinator w) !! STATE_ENDPOINT = Some state →
  state ≠ VStr OPENAIR_STATE_ON →
  update_on_off w
    = Return (positive_percentage (fan w))
        (if positive_percentage (fan w) then with_percentage (Some 0) w else w)
  ∧ update_on_off (if positive_percentage (fan w) then with_percentage (Some 0) w else w)
    = Return false
        (if positive_percentage (fan w) then with_percentage (Some 0) w else w).
Proof.
  intros Hstate Hoff.
  assert (Heq : py_eq state (VStr OPENAIR_STATE_ON) = false).
  { apply not_true_is_false. by rewrite py_eq_VStr. }
  assert (Hstep : ∀ w0, condition (coordinator w0) !! STATE_ENDPOINT = Some state →
            update_on_off w0
            = Return (positive_percentage (fan w0))
                (if positive_percentage (fan w0) then with_percentage (Some 0) w0 else w0)).
  { intros w0 Hw0.
    unfold update_on_off, Coordinator_is_on, Coordinator_get_state, condition_getitem.
    cbv [mbind M_bind get_world mret M_ret]. rewrite Hw0, Heq. cbv [negb].
    unfold positive_percentage. destruct (_percentage (fan w0)) as [p|]; [|done].
    by destruct (0 <? p). }
  split; [by apply Hstep|].
  rewrite Hstep; [|by destruct (positive_percentage (fan w))].
  unfold positive_percentage at 1 3.
  destruct (positive_percentage (fan w)) eqn:Hpos; [done|].
  unfold positive_percentage in Hpos. by rewrite Hpos.
Qed.

(** The item at a position of a list without repetitions has that
    position's percentage. *)
Lemma percentage_at_position (k : Z) :
  NoDup OPENAIR_SPEED_LIST → 1 ≤ k ≤ Z.of_nat (length OPENAIR_SPEED_LIST) →
  ∃ named_speed,
    list_getitem OPENAIR_SPEED_LIST (k - 1) = Val named_speed
    ∧ ordered_list_item_to_percentage OPENAIR_SPEED_LIST named_speed
      = Val (speed_percentage k).
Proof.
  intros Hnd Hk.
  destruct (lookup_lt_is_Some_2 OPENAIR_SPEED_LIST (Z.to_nat (k - 1)))
    as [named_speed Hitem]; [lia|].
  exists named_speed. split.
  - unfold list_getitem.
    replace (k - 1 <? 0) with false by lia. cbv iota.
    replace (0 <=? k - 1) with true by lia.
    replace (k - 1 <? Z.of_nat (length OPENAIR_SPEED_LIST)) with true by lia.
    simpl andb. cbv iota. by rewrite Hitem.
  - unfold ordered_list_item_to_percentage, speed_percentage.
    rewrite (list_index_NoDup _ _ _ Hnd Hitem). do 3 f_equal. lia.
Qed.

(** X17: from its second statement on, with [speed] bound to an integer
    between 1 and the number of speeds, and a speed list without
    repetitions, the speed step sets the percentage to the upper bound
    of that speed's bucket, a value between 0 and 100, and flags a
    change; where the percentage already has that value it changes and
    flags nothing. *)
Theorem update_speed_with_in_range (k : Z) (w : World) :
  NoDup OPENAIR_SPEED_LIST → 1 ≤ k ≤ Z.of_nat (length OPENAIR_SPEED_LIST) →
  (percentage (fan w) ≠ Some (speed_percentage k) →
     update_speed_with (VInt k) w
     = Return true (with_percentage (Some (speed_percentage k)) w))
  ∧ (percentage (fan w) = Some (speed_percentage k) →
       update_speed_with (VInt k) w = Return false w)
  ∧ 0 ≤ speed_percentage k ≤ 100.
Proof.
  intros Hnd Hk.
  destruct (percentage_at_position k Hnd Hk) as (named_speed & Hitem & Hpct).
  assert (Hrun : update_speed_with (VInt k) w
            = if bool_decide (_percentage (fan w) ≠ Some (speed_percentage k))
              then Return true (with_percentage (Some (speed_percentage k)) w)
              else Return false w).
  { unfold update_speed_with, speed_missing.
    cbv [mbind M_bind res_bind get_world mret M_ret lift py_is_None py_gt_int
         py_is_False py_sub_int py_eq orb].
    replace (Z.of_nat (length OPENAIR_SPEED_LIST) <? k) with false by lia.
    replace (k =? 0) with false by lia.
    cbv [andb]. rewrite Hitem, Hpct. by destruct (bool_decide _). }
  unfold percentage. repeat split.
  - intros Hne. by rewrite Hrun, bool_decide_eq_true_2.
  - intros Heq. rewrite Hrun, bool_decide_eq_false_2; [done|]. by intros ?.
  - unfold speed_percentage. apply Z.div_pos; lia.
  - unfold speed_percentage. apply Z.div_le_upper_bound; nia.
Qed.

(** X18: from its second statement on, with [speed] bound to 0, the
    speed step never settles: a known percentage is cleared, and an
    unknown one is set from the last item of the speed list, the index
    -1 counting from the end, to 100; either way a change is flagged. *)
Theorem update_speed_with_zero_alternates (w : World) :
  NoDup OPENAIR_SPEED_LIST → OPENAIR_SPEED_LIST ≠ [] →
  (percentage (fan w) ≠ None →
     update_speed_with (VInt 0) w = Return true (with_percentage None w))
  ∧ (percentage (fan w) = None →
       update_speed_with (VInt 0) w = Return true (with_percentage (Some 100) w)).
Proof.
  intros Hnd Hne. unfold percentage. split.
  - intros Hknown. unfold update_speed_with, speed_missing.
    cbv [mbind M_bind res_bind get_world mret M_ret lift py_is_None py_gt_int py_eq].
    rewrite (proj2 (Z.ltb_ge (Z.of_nat (length OPENAIR_SPEED_LIST)) 0)) by lia.
    change (0 =? 0) with true. cbv iota.
    destruct (_percentage (fan w)) eqn:Hp; [|done].
    rewrite bool_decide_eq_true_2 by eauto. reflexivity.
  - intros Hnone.
    assert (Hlen : 1 ≤ Z.of_nat (length OPENAIR_SPEED_LIST)).
    { destruct OPENAIR_SPEED_LIST; [done | simpl length; lia]. }
    destruct (last_is_Some OPENAIR_SPEED_LIST Hne) as [named_speed Hlast].
    assert (Hpct : ordered_list_item_to_percentage OPENAIR_SPEED_LIST named_speed
              = Val 100).
    { unfold ordered_list_item_to_percentage. rewrite last_lookup in Hlast.
      rewrite (list_index_NoDup _ _ _ Hnd Hlast). f_equal.
      replace (Z.of_nat (pred (length OPENAIR_SPEED_LIST)) + 1)
        with (Z.of_nat (length OPENAIR_SPEED_LIST)) by lia.
      rewrite Z.mul_comm. apply Z.div_mul. lia. }
    unfold update_speed_with, speed_missing.
    cbv [mbind M_bind res_bind get_world mret M_ret lift py_is_None py_gt_int
         py_is_False py_sub_int py_eq orb].
    rewrite (proj2 (Z.ltb_ge (Z.of_nat (length OPENAIR_SPEED_LIST)) 0)) by lia.
    change (0 =? 0) with true. cbv iota. rewrite Hnone.
    rewrite bool_decide_eq_false_2 by (by intros [? [=]]).
    cbv [andb]. change (0 - 1) with (-1).
    rewrite (list_getitem_last _ _ Hlast), Hpct.
    by rewrite bool_decide_eq_true_2.
Qed.

(** X19: a preset mode of the entity's list is stored, and the host is
    notified, unless the mode is the off sentinel: that one is stored
    without a notification.  Nothing else changes and no call reaches
    the client. *)
Theorem set_preset_mode_known_mode (requested : string) (modes : list string) (w : World) :
  preset_modes (fan w) = Some modes → requested ∈ modes →
  async_set_preset_mode requested w
  = Return tt
      (if bool_decide (requested = OPENAIR_STATE_OFF)
       then with_preset_mode (Some requested) w
       else notified (with_preset_mode (Some requested) w)).
Proof.
  intros Hmodes Hin. unfold async_set_preset_mode.
  cbv [mbind M_bind get_world raise]. rewrite Hmodes.
  assert (Hne : modes ≠ []) by (intros ->; by apply not_elem_of_nil in Hin).
  rewrite (bool_decide_eq_true_2 _ Hne), (bool_decide_eq_true_2 _ Hin). cbn.
  destruct (decide (requested = OPENAIR_STATE_OFF)) as [Hoff|Hoff].
  - rewrite !bool_decide_eq_true_2; [done | done | by rewrite Hoff].
  - rewrite !bool_decide_eq_false_2; [done | done | by intros [=]].
Qed.

(** X20: [async_turn_on] notifies the host and does nothing else: the
    entity keeps its fields, the requested percentage is not stored, and
    nothing is published.  With a percentage and an empty speed list it
    raises [ValueError] and does not even notify. *)
Theorem async_turn_on_only_notifies (requested : option Z) (w : World) :
  (requested = None ∨ OPENAIR_SPEED_LIST ≠ [] →
     async_turn_on requested w = Return tt (notified w))
  ∧ (requested ≠ None → OPENAIR_SPEED_LIST = [] →
       async_turn_on requested w = Raise ValueError w).
Proof.
  unfold async_turn_on. split.
  - intros Hok. destruct requested as [p|]; [|done].
    destruct Hok as [[=]|Hne].
    cbv [mbind M_bind mret M_ret call_without_await lift].
    unfold percentage_to_ordered_list_item.
    destruct OPENAIR_SPEED_LIST as [|x l]; [done|].
    by destruct (first_bucket _ p 0 (x :: l)).
  - intros Hsome Hnil. destruct requested as [p|]; [|done].
    cbv [mbind M_bind mret M_ret call_without_await lift].
    by rewrite Hnil.
Qed.
End steps.

(** ** Named speeds and their percentages *)

Section named_speeds.
Context {A : Type} `{EqDecision A}.

(** The loop stops at a position whose bound reaches the percentage
    when no earlier bound does. *)
Lemma first_bucket_at (n p off : Z) (l : list A) (i : nat) (item : A) :
  l !! i = Some item →
  (∀ j : nat, (j < i)%nat → ((off + Z.of_nat j + 1) * 100) / n < p) →
  p ≤ ((off + Z.of_nat i + 1) * 100) / n →
  first_bucket n p off l = Some item.
Proof.
  revert off i. induction l as [|x l IH]; intros off i Hi Hbelow Hreach; [done|].
  simpl. destruct i as [|i].
  - injection Hi as ->.
    replace (off + Z.of_nat 0 + 1) with (off + 1) in Hreach by lia.
    by rewrite (proj2 (Z.leb_le _ _) Hreach).
  - pose proof (Hbelow 0%nat ltac:(lia)) as H0.
    replace (off + Z.of_nat 0 + 1) with (off + 1) in H0 by lia.
    rewrite (proj2 (Z.leb_gt _ _) H0).
    apply (IH (off + 1) i Hi).
    + intros j Hj. pose proof (Hbelow (S j) ltac:(lia)) as HSj.
      by replace (off + 1 + Z.of_nat j + 1) with (off + Z.of_nat (S j) + 1) by lia.
    + by replace (off + 1 + Z.of_nat i + 1) with (off + Z.of_nat (S i) + 1) by lia.
Qed.

(** Up to a hundred speeds, the bounds of the buckets grow strictly. *)
Lemma bucket_bounds_increase (n a b : Z) :
  0 < n ≤ 100 → a < b → (a * 100) / n < (b * 100) / n.
Proof.
  intros Hn Hab.
  assert (Hstep : (a * 100 + 1 * n) / n ≤ (b * 100) / n)
    by (apply Z.div_le_mono; lia).
  rewrite Z.div_add in Hstep by lia. lia.
Qed.

(** X21: for a speed list without repetitions and of at most a hundred
    items, the percentage of a named speed maps back to that named
    speed. *)
Theorem named_speed_round_trip (ordered_list : list A) (item : A) :
  NoDup ordered_list → (length ordered_list ≤ 100)%nat → item ∈ ordered_list →
  ∃ q : Z,
    ordered_list_item_to_percentage ordered_list item = Val q
    ∧ percentage_to_ordered_list_item ordered_list q = Val item.
Proof.
  intros Hnd Hlen Hin.
  apply list_elem_of_lookup in Hin as [i Hi].
  pose proof (lookup_lt_Some _ _ _ Hi) as Hlt.
  exists ((Z.of_nat i + 1) * 100 / Z.of_nat (length ordered_list)). split.
  - unfold ordered_list_item_to_percentage. by rewrite (list_index_NoDup _ _ _ Hnd Hi).
  - unfold percentage_to_ordered_list_item.
    destruct ordered_list as [|x l] eqn:Hl; [done|]. rewrite <- Hl in *.
    rewrite (first_bucket_at _ _ 0 ordered_list i item Hi); [done| |].
    + intros j Hj. rewrite !Z.add_0_l. apply bucket_bounds_increase; lia.
    + by rewrite Z.add_0_l.
Qed.
End named_speeds.

(** ** The claims on concrete worlds *)

#[local] Existing Instance example_const.

Lemma async_login_twice_witness :
  ∃ w1 : World,
    Coordinator_async_login connect_raises_OSError (initial_world example_data)
      = Return false w1
    ∧ is_logged_in (coordinator w1) = true
    ∧ count_calls is_connect (calls w1) = 1%nat
    ∧ count_calls is_subscribe (calls w1) = 1%nat
    ∧ subscribes_count (mqttc (coordinator w1)) = 1%nat
    ∧ Coordinator_async_login connect_returns w1 = Return true w1.
Proof.
  apply (async_login_twice (initial_world example_data)
           connect_raises_OSError connect_returns).
  reflexivity.
Defined.

(** With the device on and the entity at 0, the on/off step flags a
    change and leaves the percentage at 0, not at the 14 of the first
    speed. *)
Lemma update_on_off_keeps_zero_percentage :
  ordered_list_item_to_percentage OPENAIR_SPEED_LIST OPENAIR_SPEED_01 = Val 14
  ∧ update_on_off (with_percentage (Some 0) example_world)
    = Return true (with_percentage (Some 0) example_world)
  ∧ percentage (fan (world_after (update_on_off (with_percentage (Some 0) example_world))))
    ≠ Some 14.
Proof. vm_compute. by repeat split. Qed.

(** The same with the off preset selected: the step clears the preset
    as well. *)
Example update_on_off_clears_off_preset :
  update_on_off (with_preset_mode (Some "off") (with_percentage (Some 0) example_world))
    = Return true (with_preset_mode None
                     (with_preset_mode (Some "off") (with_percentage (Some 0) example_world))).
Proof. reflexivity. Qed.

Lemma update_on_off_when_on_witness :
  ∃ w' : World,
    update_on_off example_world = Return true w'
    ∧ percentage (fan w') = Some 14
    ∧ preset_mode (fan w') = None
    ∧ coordinator w' = coordinator example_world
    ∧ calls w' = calls example_world.
Proof.
  apply (update_on_off_when_on example_world 14); [reflexivity | reflexivity | by left].
Defined.

(** A payload that is not valid UTF-8 makes the handler raise after it
    has unsubscribed, and no entry is written. *)
Lemma on_message_raises_on_binary_payload :
  MqttClient_on_message int_ascii binary_message (initial_world example_data)
    = Raise UnicodeDecodeError
        {| fan := fan (initial_world example_data);
           coordinator := coordinator (initial_world example_data);
           calls := [client_unsubscribe "vakio/openair/speed"] |}
  ∧ condition (coordinator (world_after
      (MqttClient_on_message int_ascii binary_message (initial_world example_data))))
    = condition (coordinator (initial_world example_data)).
Proof. split; reflexivity. Qed.

Lemma on_message_writes_one_entry_witness :
  ∃ key : string,
    last (str_split "/" (topic speed_message)) = Some key
    ∧ MqttClient_on_message int_ascii speed_message (initial_world example_data)
      = Return tt
          {| fan := fan (initial_world example_data);
             coordinator :=
               set_condition
                 (<[key := VInt 3]> (condition (coordinator (initial_world example_data))))
                 (coordinator (initial_world example_data));
             calls := calls (initial_world example_data)
                      ++ [client_unsubscribe (topic speed_message)] |}
    ∧ ∀ other : string, other ≠ key →
        condition (coordinator (world_after
          (MqttClient_on_message int_ascii speed_message (initial_world example_data))))
          !! other
        = condition (coordinator (initial_world example_data)) !! other.
Proof.
  apply (on_message_writes_one_entry int_ascii speed_message (initial_world example_data)).
  reflexivity.
Defined.

(** The entry written for that message: the integer 3 under "speed". *)
Example on_message_speed :
  condition (coordinator (world_after
    (MqttClient_on_message int_ascii speed_message (initial_world example_data))))
    !! SPEED_ENDPOINT = Some (VInt 3).
Proof. reflexivity. Qed.

Example int_ascii_samples :
  int_ascii "3" = Some 3 ∧ int_ascii " -12 " = Some (-12) ∧ int_ascii "1_000" = Some 1000
  ∧ int_ascii "on" = None ∧ int_ascii "" = None
  ∧ int_ascii "1__0" = None ∧ int_ascii "7_" = None.
Proof. repeat split. Qed.

Lemma set_preset_mode_validation_witness :
  ((∃ w', async_set_preset_mode "Turbo" (initial_world example_data) = Raise ValueError w')
     ↔ ¬ ∃ l, preset_modes (fan (initial_world example_data)) = Some l ∧ "Turbo" ∈ l)
  ∧ (∀ e w', async_set_preset_mode "Turbo" (initial_world example_data) = Raise e w' →
       e = ValueError ∧ w' = initial_world example_data).
Proof. apply (set_preset_mode_validation "Turbo" (initial_world example_data)). Defined.

Example set_preset_mode_unknown :
  async_set_preset_mode "Turbo" (initial_world example_data)
    = Raise ValueError (initial_world example_data).
Proof. reflexivity. Qed.

Example set_preset_mode_known :
  async_set_preset_mode "Gate 1" (initial_world example_data)
    = Return tt
        {| fan := set__preset_mode (Some "Gate 1") (fan (initial_world example_data));
           coordinator := coordinator (initial_world example_data);
           calls := [schedule_update_ha_state] |}.
Proof. reflexivity. Qed.

(** The timer callback with speed 3 in the cache and an entity that has
    no percentage yet: [TypeError], no notification, no percentage. *)
Example async_update_speed_3 :
  _async_update (with_condition SPEED_ENDPOINT (VInt 3) example_world)
    = Raise TypeError (with_condition SPEED_ENDPOINT (VInt 3) example_world)
  ∧ count_calls is_notification
      (calls (world_after
         (_async_update (with_condition SPEED_ENDPOINT (VInt 3) example_world))))
    = 0%nat
  ∧ percentage (fan (world_after
      (_async_update (with_condition SPEED_ENDPOINT (VInt 3) example_world))))
    = None.
Proof. repeat split. Qed.

(** With the device and the entity in agreement, neither the tests of
    the speed step nor the on/off step see a change, and the preset step
    reports one all the same. *)
Example idle_steps :
  update_speed_with (VInt 1) idle_world = Return false idle_world
  ∧ update_on_off idle_world = Return false idle_world
  ∧ update_preset_mode idle_world = Return true idle_world.
Proof. repeat split. Qed.

(** The tests of the speed step on the values the cache can hold, the
    entity having no percentage yet: speed 3 becomes 42; speed 0 and
    speed -1 index the list from its end; speed 8 of 7 is an
    [IndexError]. *)
Example update_speed_with_samples :
  update_speed_with (VInt 3) example_world
    = Return true (with_percentage (Some 42) example_world)
  ∧ update_speed_with (VInt 0) example_world
    = Return true (with_percentage (Some 100) example_world)
  ∧ update_speed_with (VInt (-1)) example_world
    = Return true (with_percentage (Some 85) example_world)
  ∧ update_speed_with (VInt 8) example_world = Raise IndexError example_world
  ∧ update_speed_with VNone example_world = Return false example_world
  ∧ update_speed_with VNone (with_percentage (Some 42) example_world)
    = Return true (with_percentage None (with_percentage (Some 42) example_world)).
Proof. repeat split. Qed.

(** The speed setter when the library reports that there is no
    connection. *)
Example speed_setter_without_connection :
  Coordinator_speed (Some 3) no_connection (initial_world example_data)
    = Return (VBool true) (published SPEED_ENDPOINT (VInt 3) (initial_world example_data))
  ∧ calls (published SPEED_ENDPOINT (VInt 3) (initial_world example_data))
    = [client_publish "vakio/openair/speed" (VInt 3) 0 true].
Proof. split; reflexivity. Qed.

(** A request for 50 on the entity as constructed: it ends in the
    [TypeError] of the speed step, with 50 stored and no call made. *)
Example set_percentage_50 :
  async_set_percentage 50 (initial_world example_data)
    = Raise TypeError (with_percentage (Some 50) (initial_world example_data))
  ∧ calls (with_percentage (Some 50) (initial_world example_data)) = [].
Proof. split; reflexivity. Qed.

(** A request for 0 on the entity as constructed: the notification is
    the only call. *)
Example set_percentage_0 :
  async_set_percentage 0 (initial_world example_data)
    = Return tt
        {| fan := set__percentage (Some 0) (fan (initial_world example_data));
           coordinator := coordinator (initial_world example_data);
           calls := [schedule_update_ha_state] |}.
Proof. reflexivity. Qed.

(** ** The further properties on concrete worlds *)

Lemma on_message_raises_iff_not_utf8_witness :
  ((∃ e w', MqttClient_on_message int_ascii binary_message (initial_world example_data)
            = Raise e w')
     ↔ utf8_valid (payload binary_message) = false)
  ∧ (∀ e w', MqttClient_on_message int_ascii binary_message (initial_world example_data)
             = Raise e w' →
       e = UnicodeDecodeError
       ∧ fan w' = fan (initial_world example_data)
       ∧ coordinator w' = coordinator (initial_world example_data)).
Proof.
  apply (on_message_raises_iff_not_utf8 int_ascii binary_message
           (initial_world example_data)).
Defined.

Lemma on_message_fills_the_slot_of_its_endpoint_witness :
  condition_getitem GATE_ENDPOINT
    (world_after (MqttClient_on_message int_ascii
       {| topic := "vakio/openair" +:+ "/" +:+ GATE_ENDPOINT; payload := "2" |}
       (initial_world example_data)))
  = Return (stored int_ascii "2")
      (world_after (MqttClient_on_message int_ascii
         {| topic := "vakio/openair" +:+ "/" +:+ GATE_ENDPOINT; payload := "2" |}
         (initial_world example_data)))
  ∧ await (co_speed None) no_connection
      (world_after (MqttClient_on_message int_ascii
         {| topic := "vakio/openair" +:+ "/" +:+ SPEED_ENDPOINT; payload := "2" |}
         (initial_world example_data)))
    = Return (stored int_ascii "2")
        (world_after (MqttClient_on_message int_ascii
           {| topic := "vakio/openair" +:+ "/" +:+ SPEED_ENDPOINT; payload := "2" |}
           (initial_world example_data))).
Proof.
  apply (on_message_fills_the_slot_of_its_endpoint int_ascii "vakio/openair"
           GATE_ENDPOINT "2" no_connection (initial_world example_data)).
  - unfold ENDPOINTS. repeat constructor.
  - reflexivity.
Defined.

Lemma telemetry_for_different_slots_commutes_witness :
  condition (coordinator (run_all int_ascii
    [on_message_op speed_message;
     on_message_op {| topic := "vakio/openair/state"; payload := "on" |}]
    (initial_world example_data)))
  = condition (coordinator (run_all int_ascii
      [on_message_op {| topic := "vakio/openair/state"; payload := "on" |};
       on_message_op speed_message]
      (initial_world example_data))).
Proof.
  apply (telemetry_for_different_slots_commutes int_ascii speed_message
           {| topic := "vakio/openair/state"; payload := "on" |}
           (initial_world example_data)).
  vm_compute. discriminate.
Defined.

Lemma last_telemetry_wins_witness :
  condition (coordinator (run_all int_ascii
    [on_message_op speed_message;
     on_message_op {| topic := "vakio/openair/speed"; payload := "5" |}]
    (initial_world example_data)))
  = condition (coordinator (run_all int_ascii
      [on_message_op {| topic := "vakio/openair/speed"; payload := "5" |}]
      (initial_world example_data))).
Proof.
  apply (last_telemetry_wins int_ascii speed_message
           {| topic := "vakio/openair/speed"; payload := "5" |}
           (initial_world example_data)); reflexivity.
Defined.

Lemma is_on_after_state_message_witness :
  ∃ on : bool,
    Coordinator_is_on
      (world_after (MqttClient_on_message int_ascii
         {| topic := "vakio/openair" +:+ "/" +:+ STATE_ENDPOINT; payload := "on" |}
         (initial_world example_data)))
    = Return on
        (world_after (MqttClient_on_message int_ascii
           {| topic := "vakio/openair" +:+ "/" +:+ STATE_ENDPOINT; payload := "on" |}
           (initial_world example_data)))
    ∧ (on = true ↔ int_ascii "on" = None ∧ "on" = OPENAIR_STATE_ON).
Proof.
  apply (is_on_after_state_message int_ascii "vakio/openair" "on"
           (initial_world example_data)).
  reflexivity.
Defined.

(** An integer payload on the state topic does not switch the device
    on, whatever the integer. *)
Example is_on_after_state_1 :
  Coordinator_is_on
    (world_after (MqttClient_on_message int_ascii
       {| topic := "vakio/openair/state"; payload := "1" |} (initial_world example_data)))
  = Return false
      (world_after (MqttClient_on_message int_ascii
         {| topic := "vakio/openair/state"; payload := "1" |}
         (initial_world example_data))).
Proof. reflexivity. Qed.

Lemma coordinator_side_never_touches_entity_witness :
  fan (run_all int_ascii example_coordinator_ops (with_percentage (Some 42) example_world))
  = fan (with_percentage (Some 42) example_world).
Proof.
  apply (coordinator_side_never_touches_entity int_ascii example_coordinator_ops
           (with_percentage (Some 42) example_world)).
  repeat constructor.
Defined.

Lemma entity_methods_never_reach_the_client_witness :
  coordinator (run_all int_ascii example_entity_ops example_world)
  = coordinator example_world
  ∧ List.filter is_client_call (calls (run_all int_ascii example_entity_ops example_world))
    = List.filter is_client_call (calls example_world).
Proof.
  apply (entity_methods_never_reach_the_client int_ascii example_entity_ops example_world).
  repeat constructor.
Defined.

Lemma condition_written_only_by_on_message_witness :
  condition (coordinator (run_all int_ascii
    [async_login_op connect_returns; coordinator_update_op;
     await_op (co_state (Some "off")) no_connection; async_set_percentage_op 0;
     update_on_off_op]
    example_world))
  = condition (coordinator example_world).
Proof.
  apply (condition_written_only_by_on_message int_ascii
           [async_login_op connect_returns; coordinator_update_op;
            await_op (co_state (Some "off")) no_connection; async_set_percentage_op 0;
            update_on_off_op]
           example_world).
  repeat constructor.
Defined.

Lemma getters_never_raise_KeyError_witness :
  (∃ value, condition_getitem HUD_ENDPOINT
              (run_all int_ascii example_ops (initial_world example_data))
            = Return value (run_all int_ascii example_ops (initial_world example_data)))
  ∧ (∃ on, Coordinator_is_on (run_all int_ascii example_ops (initial_world example_data))
           = Return on (run_all int_ascii example_ops (initial_world example_data))).
Proof.
  apply (getters_never_raise_KeyError int_ascii example_data example_ops HUD_ENDPOINT).
  unfold ENDPOINTS. repeat constructor.
Defined.

Lemma preset_mode_stays_known_witness :
  preset_mode_known (fan (run_all int_ascii example_ops (initial_world example_data))).
Proof.
  apply (preset_mode_stays_known int_ascii example_ops (initial_world example_data)).
  simpl. exact I.
Defined.

Lemma subscribes_count_counts_subscriptions_witness :
  subscribes_count (mqttc (coordinator
    (run_all int_ascii example_ops (initial_world example_data))))
  = count_calls is_subscribe
      (calls (run_all int_ascii example_ops (initial_world example_data))).
Proof.
  apply (subscribes_count_counts_subscriptions int_ascii example_ops
           (initial_world example_data)).
  reflexivity.
Defined.

(** The day of [example_ops]: one connect, three subscriptions (the
    login and two refreshes), one publish, three unsubscribes. *)
Example example_ops_calls :
  count_calls is_connect
    (calls (run_all int_ascii example_ops (initial_world example_data))) = 1%nat
  ∧ count_calls is_subscribe
      (calls (run_all int_ascii example_ops (initial_world example_data))) = 3%nat
  ∧ count_calls is_publish
      (calls (run_all int_ascii example_ops (initial_world example_data))) = 1%nat
  ∧ count_calls is_unsubscribe
      (calls (run_all int_ascii example_ops (initial_world example_data))) = 3%nat.
Proof. vm_compute. done. Qed.

Lemma telemetry_and_ticks_never_notify_witness :
  count_calls is_notification (calls (run_all int_ascii
    [on_message_op speed_message; coordinator_update_op; async_update_op;
     async_turn_off_op; async_login_op connect_returns; update_on_off_op]
    example_world))
  = count_calls is_notification (calls example_world).
Proof.
  apply (telemetry_and_ticks_never_notify int_ascii
           [on_message_op speed_message; coordinator_update_op; async_update_op;
            async_turn_off_op; async_login_op connect_returns; update_on_off_op]
           example_world).
  repeat constructor.
Defined.

Lemma update_on_off_when_off_witness :
  update_on_off (with_percentage (Some 50) (initial_world example_data))
  = Return true
      (with_percentage (Some 0) (with_percentage (Some 50) (initial_world example_data)))
  ∧ update_on_off
      (with_percentage (Some 0) (with_percentage (Some 50) (initial_world example_data)))
    = Return false
        (with_percentage (Some 0) (with_percentage (Some 50) (initial_world example_data))).
Proof.
  apply (update_on_off_when_off (with_percentage (Some 50) (initial_world example_data))
           VNone).
  - reflexivity.
  - discriminate.
Defined.

Lemma update_speed_with_in_range_witness :
  (percentage (fan example_world) ≠ Some (speed_percentage 3) →
     update_speed_with (VInt 3) example_world
     = Return true (with_percentage (Some (speed_percentage 3)) example_world))
  ∧ (percentage (fan example_world) = Some (speed_percentage 3) →
       update_speed_with (VInt 3) example_world = Return false example_world)
  ∧ 0 ≤ speed_percentage 3 ≤ 100.
Proof.
  apply (update_speed_with_in_range 3 example_world).
  - apply (bool_decide_unpack _). reflexivity.
  - simpl. lia.
Defined.

Lemma update_speed_with_zero_alternates_witness :
  (percentage (fan example_world) ≠ None →
     update_speed_with (VInt 0) example_world
     = Return true (with_percentage None example_world))
  ∧ (percentage (fan example_world) = None →
       update_speed_with (VInt 0) example_world
       = Return true (with_percentage (Some 100) example_world)).
Proof.
  apply (update_speed_with_zero_alternates example_world).
  - apply (bool_decide_unpack _). reflexivity.
  - discriminate.
Defined.

Lemma set_preset_mode_known_mode_witness :
  async_set_preset_mode "Gate 2" (initial_world example_data)
  = Return tt
      (if bool_decide ("Gate 2" = OPENAIR_STATE_OFF)
       then with_preset_mode (Some "Gate 2") (initial_world example_data)
       else notified (with_preset_mode (Some "Gate 2") (initial_world example_data))).
Proof.
  apply (set_preset_mode_known_mode "Gate 2" PRESET_MODS (initial_world example_data)).
  - reflexivity.
  - unfold PRESET_MODS. repeat constructor.
Defined.

Lemma async_turn_on_only_notifies_witness :
  (Some 30 = None ∨ OPENAIR_SPEED_LIST ≠ [] →
     async_turn_on (Some 30) example_world = Return tt (notified example_world))
  ∧ (Some 30 ≠ None → OPENAIR_SPEED_LIST = [] →
       async_turn_on (Some 30) example_world = Raise ValueError example_world).
Proof. apply (async_turn_on_only_notifies (Some 30) example_world). Defined.

(** Turning on with 30 percent leaves the entity without a percentage. *)
Example async_turn_on_30 :
  async_turn_on (Some 30) example_world = Return tt (notified example_world)
  ∧ percentage (fan (notified example_world)) = None.
Proof. split; reflexivity. Qed.

Lemma named_speed_round_trip_witness :
  ∃ q : Z,
    ordered_list_item_to_percentage [1; 2; 3; 4; 5; 6; 7] 3 = Val q
    ∧ percentage_to_ordered_list_item [1; 2; 3; 4; 5; 6; 7] q = Val 3.
Proof.
  apply (named_speed_round_trip [1; 2; 3; 4; 5; 6; 7] 3).
  - apply (bool_decide_unpack _). reflexivity.
  - simpl. lia.
  - repeat constructor.
Defined.

Lemma update_on_off_on_leaves_zero_percentage_witness :
  ∃ w' : World,
    update_on_off (with_percentage (Some 0) example_world) = Return true w'
    ∧ percentage (fan w') = Some 0
    ∧ (preset_mode (fan (with_percentage (Some 0) example_world))
         ≠ Some OPENAIR_STATE_OFF →
       w' = with_percentage (Some 0) example_world)
    ∧ _async_update (with_percentage (Some 0) example_world)
      = Raise TypeError (with_percentage (Some 0) example_world).
Proof.
  apply (update_on_off_on_leaves_zero_percentage (with_percentage (Some 0) example_world));
    reflexivity.
Defined.

Lemma on_message_unsubscribes_then_writes_or_raises_witness :
  ∃ key : string,
    message_key binary_message = Some key
    ∧ calls (world_after
        (MqttClient_on_message int_ascii binary_message (initial_world example_data)))
      = calls (initial_world example_data) ++ [client_unsubscribe (topic binary_message)]
    ∧ (utf8_valid (payload binary_message) = true →
         MqttClient_on_message int_ascii binary_message (initial_world example_data)
         = Return tt
             {| fan := fan (initial_world example_data);
                coordinator :=
                  set_condition
                    (<[key := stored int_ascii (payload binary_message)]>
                       (condition (coordinator (initial_world example_data))))
                    (coordinator (initial_world example_data));
                calls := calls (initial_world example_data)
                         ++ [client_unsubscribe (topic binary_message)] |})
    ∧ (utf8_valid (payload binary_message) = false →
         MqttClient_on_message int_ascii binary_message (initial_world example_data)
         = Raise UnicodeDecodeError
             {| fan := fan (initial_world example_data);
                coordinator := coordinator (initial_world example_data);
                calls := calls (initial_world example_data)
                         ++ [client_unsubscribe (topic binary_message)] |}).
Proof.
  apply (on_message_unsubscribes_then_writes_or_raises int_ascii binary_message
           (initial_world example_data)).
Defined.

(** A session that is probed twice with [try_connect], logged in and
    closed: three connects, one subscription. *)
Example try_connect_connects_every_time :
  count_calls is_connect (calls (run_all int_ascii
    [try_connect_op connect_raises_OSError; try_connect_op connect_returns;
     async_login_op connect_returns; async_login_op connect_returns; disconnect_op]
    (initial_world example_data))) = 3%nat
  ∧ count_calls is_subscribe (calls (run_all int_ascii
      [try_connect_op connect_raises_OSError; try_connect_op connect_returns;
       async_login_op connect_returns; async_login_op connect_returns; disconnect_op]
      (initial_world example_data))) = 1%nat.
Proof. vm_compute. done. Qed.
